(** * weather_api/main.py: collector, persistence writer and map renderer

    A shallow embedding of [src/weather_api/main.py].  Python objects are a
    small inductive type, dictionaries are insertion-ordered association
    lists (the order of a [dict] decides the columns of the history row),
    and the script's effects (HTTP requests, console output, the four files
    under [data/], exceptions) are threaded through a state-and-exception
    monad.  The network and the clock are the environment of a run and are
    Section variables. *)

From Stdlib Require Import String List ZArith QArith Bool Lia Sorted.
From Stdlib Require OrderedTypeEx.
Import ListNotations.
Close Scope Q_scope.
Open Scope string_scope.
Open Scope list_scope.

#[local] Set Warnings "-register-all".

(** ** Python values *)

(** A [float]: a finite value, an infinity, or not-a-number. *)
Inductive pyfloat : Type :=
| Fin (q : Q)
| Inf (negative : bool)
| NaN.

(** The objects [json.loads] can build, which are also all the objects the
    script ever stores in [results]. *)
Inductive pyval : Type :=
| PNone
| PBool (b : bool)
| PInt (z : Z)
| PFloat (f : pyfloat)
| PStr (s : string)
| PList (l : list pyval)
| PDict (d : list (string * pyval)).

(** [math.nan] *)
Definition nan : pyval := PFloat NaN.

(** [v is not None] *)
Definition is_not_None (v : pyval) : bool :=
  match v with
  | PNone => false
  | _ => true
  end.

(** [pandas.isna(v)] on a scalar. *)
Definition isna (v : pyval) : bool :=
  match v with
  | PNone => true
  | PFloat NaN => true
  | _ => false
  end.

(** [isinstance(v, (int, float))] for a value that is not a [bool] and not
    the sentinel: a proper number. *)
Definition is_number (v : pyval) : bool :=
  match v with
  | PInt _ => true
  | PFloat (Fin _) => true
  | PFloat (Inf _) => true
  | _ => false
  end.

(** Whether [format(v, ">6")] succeeds.  [int], [float], [bool] and [str]
    implement the alignment specifier; [NoneType], [list] and [dict] inherit
    [object.__format__], which raises [TypeError] for a non-empty format
    specifier. *)
Definition supports_format_spec (v : pyval) : bool :=
  match v with
  | PBool _ | PInt _ | PFloat _ | PStr _ => true
  | PNone | PList _ | PDict _ => false
  end.

(** ** Dictionaries: insertion-ordered association lists *)

Definition dict (V : Type) : Type := list (string * V).

(** [d.get(k)] as an option. *)
Fixpoint dict_get {V : Type} (d : dict V) (k : string) : option V :=
  match d with
  | [] => None
  | (k', v) :: d' => if String.eqb k k' then Some v else dict_get d' k
  end.

(** [d[k] = v]: an existing key keeps its position, a new key goes last. *)
Fixpoint dict_set {V : Type} (d : dict V) (k : string) (v : V) : dict V :=
  match d with
  | [] => [(k, v)]
  | (k', v') :: d' =>
      if String.eqb k k' then (k', v) :: d' else (k', v') :: dict_set d' k v
  end.

(** [{**d1, **d2}] *)
Definition dict_merge {V : Type} (d1 d2 : dict V) : dict V :=
  fold_left (fun d kv => dict_set d (fst kv) (snd kv)) d2 d1.

Definition keys {V : Type} (d : dict V) : list string := map fst d.
Definition values {V : Type} (d : dict V) : list V := map snd d.

(** [k in l] for a list of labels. *)
Definition mem (k : string) (l : list string) : bool :=
  existsb (String.eqb k) l.

(** ** CONFIG *)

Definition coord : Type := (Q * Q)%type.

(** Approximate centroids for each state/UT *)
Definition STATE_CENTROIDS : dict coord :=
  [ ("Andhra Pradesh", (15.9129, 79.74)%Q);
    ("Arunachal Pradesh", (28.2180, 94.7278)%Q);
    ("Assam", (26.2006, 92.9376)%Q);
    ("Bihar", (25.0961, 85.3131)%Q);
    ("Chhattisgarh", (21.2787, 81.8661)%Q);
    ("Delhi", (28.7041, 77.1025)%Q);
    ("Goa", (15.2993, 74.1240)%Q);
    ("Gujarat", (22.2587, 71.1924)%Q);
    ("Haryana", (29.0588, 76.0856)%Q);
    ("Himachal Pradesh", (31.1048, 77.1734)%Q);
    ("Jharkhand", (23.6102, 85.2799)%Q);
    ("Karnataka", (15.3173, 75.7139)%Q);
    ("Kerala", (10.8505, 76.2711)%Q);
    ("Madhya Pradesh", (22.9734, 78.6569)%Q);
    ("Maharashtra", (19.7515, 75.7139)%Q);
    ("Manipur", (24.6637, 93.9063)%Q);
    ("Meghalaya", (25.4670, 91.3662)%Q);
    ("Mizoram", (23.1645, 92.9376)%Q);
    ("Nagaland", (26.1584, 94.5624)%Q);
    ("Odisha", (20.9517, 85.0985)%Q);
    ("Punjab", (31.1471, 75.3412)%Q);
    ("Rajasthan", (27.0238, 74.2179)%Q);
    ("Sikkim", (27.5330, 88.5122)%Q);
    ("Tamil Nadu", (11.1271, 78.6569)%Q);
    ("Telangana", (18.1124, 79.0193)%Q);
    ("Tripura", (23.9408, 91.9882)%Q);
    ("Uttar Pradesh", (26.8467, 80.9462)%Q);
    ("Uttarakhand", (30.0668, 79.0193)%Q);
    ("West Bengal", (22.9868, 87.8550)%Q);
    (* Union Territories *)
    ("Andaman and Nicobar Islands", (11.7401, 92.6586)%Q);
    ("Chandigarh", (30.7333, 76.7794)%Q);
    ("D&D", (20.1809, 73.0169)%Q);
    ("Jammu and Kashmir", (33.7782, 76.5762)%Q);
    ("Ladakh", (34.1526, 77.5770)%Q);
    ("Lakshadweep", (10.5667, 72.6417)%Q);
    ("Puducherry", (11.9416, 79.8083)%Q) ].

(** ** Exceptions *)

(** The exceptions the script raises or lets through.  Every one of them is
    a subclass of [Exception], so [except Exception] catches each. *)
Inductive exn : Type :=
| RequestException                 (* requests.get: connection error, timeout *)
| HTTPError (status : Z)           (* r.raise_for_status() *)
| JSONDecodeError                  (* r.json() on a body that is not JSON *)
| AttributeError                   (* .get on an object that is not a dict *)
| TypeError                        (* unsupported format string *)
| ValueError (available : list string)
| FileNotFoundError
| DriverError                      (* geopandas.read_file on a missing file *).

Inductive result (A : Type) : Type :=
| Ok (a : A)
| Raise (e : exn).
Arguments Ok {A} a.
Arguments Raise {A} e.

(** ** The outside world *)

(** What one [requests.get] can come back with: no response at all, or a
    response with a status code and a body.  The body is given parsed:
    [None] when it is not a JSON document. *)
Record response : Type := mkResponse {
  status_code : Z;
  body : option pyval
}.

Inductive http_outcome : Type :=
| NoResponse
| Responded (r : response).

(** Boundary data as [geopandas.read_file] delivers it: column labels and
    one feature per row, with text attributes ([None] for a null) and a
    geometry.  A geometry is given by its polygon rings, or it is the
    geometric union of two geometries; which rings a union has is left to
    the geometry library and is not computed here. *)
Definition point : Type := (Q * Q)%type.

Inductive geometry : Type :=
| Rings (rings : list (list point))
| Union (a b : geometry).

Record feature : Type := mkFeature {
  properties : dict (option string);
  geom : geometry
}.

Record GeoDataFrame : Type := mkGeoDataFrame {
  columns : list string;
  features : list feature
}.

(** The fill of one region of the choropleth: the flat colour of
    [missing_kwds], or the colour the [YlOrRd] scale gives to a value. *)
Inductive fill : Type :=
| LightGrey
| YlOrRd (v : pyval).

(** A text artist: anchored at the centroid of a geometry, showing a region
    name and a temperature ([f"{name} {temperature}°C"]). *)
Record text : Type := mkText {
  anchor_centroid_of : geometry;
  label_name : string;
  label_temperature : pyval
}.

Record figure : Type := mkFigure {
  patches : list (string * geometry * fill);
  texts : list text;
  title : string;
  footer : string
}.

(** One line written to standard output. *)
Inductive out_line : Type :=
| Message (s : string)
| Reading (region : string) (temp : pyval)
| FetchError (region : string) (e : exn)
| SavedJson
| AppendedCsv
| HeatmapSaved.

(** The state a run works on: the local [results] of [main], the console,
    the requests sent so far, and the four files under [data/] ([None]: the
    file does not exist).  The history file is a list of rows of cells. *)
Record state : Type := mkState {
  results : dict pyval;
  stdout : list out_line;
  requests : list coord;
  current_temps_json : option (dict pyval);
  weather_history_csv : option (list (list pyval));
  india_geojson : option GeoDataFrame;
  india_heatmap_png : option figure
}.

Definition set_results (d : dict pyval) (s : state) : state :=
  mkState d (stdout s) (requests s) (current_temps_json s)
          (weather_history_csv s) (india_geojson s) (india_heatmap_png s).

Definition add_stdout (l : out_line) (s : state) : state :=
  mkState (results s) (stdout s ++ [l]) (requests s) (current_temps_json s)
          (weather_history_csv s) (india_geojson s) (india_heatmap_png s).

Definition add_request (c : coord) (s : state) : state :=
  mkState (results s) (stdout s) (requests s ++ [c]) (current_temps_json s)
          (weather_history_csv s) (india_geojson s) (india_heatmap_png s).

Definition set_json (d : dict pyval) (s : state) : state :=
  mkState (results s) (stdout s) (requests s) (Some d)
          (weather_history_csv s) (india_geojson s) (india_heatmap_png s).

Definition set_csv (rows : list (list pyval)) (s : state) : state :=
  mkState (results s) (stdout s) (requests s) (current_temps_json s)
          (Some rows) (india_geojson s) (india_heatmap_png s).

Definition set_png (f : figure) (s : state) : state :=
  mkState (results s) (stdout s) (requests s) (current_temps_json s)
          (weather_history_csv s) (india_geojson s) (Some f).

(** ** The monad of the script: state and exceptions *)

Definition M (A : Type) : Type := state -> result A * state.

Definition ret {A : Type} (a : A) : M A := fun s => (Ok a, s).

Definition raise {A : Type} (e : exn) : M A := fun s => (Raise e, s).

Definition bind {A B : Type} (m : M A) (k : A -> M B) : M B :=
  fun s =>
    match m s with
    | (Ok a, s') => k a s'
    | (Raise e, s') => (Raise e, s')
    end.

(** [try: body except Exception as e: handler e].  The handler starts from
    the state the body had reached when it raised. *)
Definition try_except {A : Type} (body : M A) (handler : exn -> M A) : M A :=
  fun s =>
    match body s with
    | (Ok a, s') => (Ok a, s')
    | (Raise e, s') => handler e s'
    end.

Definition get {A : Type} (proj : state -> A) : M A := fun s => (Ok (proj s), s).

Definition modify (f : state -> state) : M unit := fun s => (Ok tt, f s).

Declare Scope py_scope.
Delimit Scope py_scope with py.
Notation "x <- m ;; k" := (bind m (fun x => k))
  (at level 61, m at next level, right associativity) : py_scope.
Notation "m ;; k" := (bind m (fun _ => k))
  (at level 61, right associativity) : py_scope.
Open Scope py_scope.

(** [for x in xs: f x] *)
Fixpoint for_each {A : Type} (xs : list A) (f : A -> M unit) : M unit :=
  match xs with
  | [] => ret tt
  | x :: xs' => f x ;; for_each xs' f
  end.

Definition print (l : out_line) : M unit := modify (add_stdout l).

(** ** FUNCTIONS *)

Section Run.

(** The network: what the request numbered [n] of the run, sent for the
    coordinates [c], comes back with. *)
Variable net : nat -> coord -> http_outcome.

(** The clock: [datetime.now(ist).strftime(fmt)]. *)
Variable strftime_now : string -> string.

(** [requests.get(OPEN_METEO_URL, params=params, timeout=15)]: one request
    goes out, and either a response comes back or the call raises. *)
Definition requests_get (c : coord) : M response :=
  fun s =>
    match net (length (requests s)) c with
    | NoResponse => (Raise RequestException, add_request c s)
    | Responded r => (Ok r, add_request c s)
    end.

(** [r.raise_for_status()]: an [HTTPError] for a 4xx or a 5xx status. *)
Definition is_error_status (code : Z) : bool :=
  ((400 <=? code) && (code <? 600))%Z.

Definition raise_for_status (r : response) : M unit :=
  if is_error_status (status_code r) then raise (HTTPError (status_code r))
  else ret tt.

(** [r.json()] *)
Definition json (r : response) : M pyval :=
  match body r with
  | Some v => ret v
  | None => raise JSONDecodeError
  end.

(** [o.get(k, default)]: only a [dict] has the method. *)
Definition py_get (o : pyval) (k : string) (default : pyval) : M pyval :=
  match o with
  | PDict d =>
      match dict_get d k with
      | Some v => ret v
      | None => ret default
      end
  | _ => raise AttributeError
  end.

(** Fetch current temperature for given lat/lon using Open-Meteo. *)
Definition get_current_temp (lat lon : Q) : M pyval :=
  r <- requests_get (lat, lon) ;;
  raise_for_status r ;;
  data <- json r ;;
  current_weather <- py_get data "current_weather" (PDict []) ;;
  py_get current_weather "temperature" PNone.

(** *** plot_heatmap *)

(** [row[c]] of a boundary feature; a column the feature lacks reads as a
    null. *)
Definition column (c : string) (f : feature) : option string :=
  match dict_get (properties f) c with
  | Some v => v
  | None => None
  end.

(** [india["state_name"] = india[src]]: a new column goes last. *)
Definition assign_state_name (src : string) (india : GeoDataFrame)
  : GeoDataFrame :=
  mkGeoDataFrame
    (if mem "state_name" (columns india) then columns india
     else columns india ++ ["state_name"])
    (map (fun f => mkFeature
                     (dict_set (properties f) "state_name" (column src f))
                     (geom f))
         (features india)).

(** The rename mapping [{"Dadra and Nagar Haveli and Daman and Diu": "D&D"}]
    of [Series.replace], on one cell. *)
Definition rename (name : option string) : option string :=
  match name with
  | Some s =>
      if String.eqb s "Dadra and Nagar Haveli and Daman and Diu"
      then Some "D&D" else Some s
  | None => None
  end.

(** [india["state_name"] = india["state_name"].replace({...})] *)
Definition replace_state_name (india : GeoDataFrame) : GeoDataFrame :=
  mkGeoDataFrame
    (columns india)
    (map (fun f => mkFeature
                     (dict_set (properties f) "state_name"
                               (rename (column "state_name" f)))
                     (geom f))
         (features india)).

(** One group of [dissolve]: groups are kept in increasing key order, and a
    feature joining an existing group is united with what the group holds. *)
Fixpoint group_insert (k : string) (g : geometry)
  (groups : list (string * geometry)) : list (string * geometry) :=
  match groups with
  | [] => [(k, g)]
  | (k', g') :: rest =>
      match String.compare k k' with
      | Eq => (k', Union g' g) :: rest
      | Lt => (k, g) :: groups
      | Gt => (k', g') :: group_insert k g rest
      end
  end.

(** [india.dissolve(by="state_name", as_index=False)]: one row per name,
    sorted by name; features with a null name are dropped.  Only the key
    and the geometry are read afterwards. *)
Definition dissolve (india : GeoDataFrame) : list (string * geometry) :=
  fold_left
    (fun groups f =>
       match column "state_name" f with
       | Some k => group_insert k (geom f) groups
       | None => groups
       end)
    (features india) [].

(** A row of the dissolved frame once the temperatures are attached. *)
Record row : Type := mkRow {
  state_name : string;
  row_geometry : geometry;
  temperature : pyval
}.

(** The type pandas gives to a column of values. *)
Inductive dtype : Type :=
| Int64
| Float64
| Object.

Definition fits_int64 (z : Z) : bool :=
  ((-9223372036854775808 <=? z) && (z <=? 9223372036854775807))%Z.

Definition is_None (v : pyval) : bool :=
  match v with
  | PNone => true
  | _ => false
  end.

Definition is_int64 (v : pyval) : bool :=
  match v with
  | PInt z => fits_int64 z
  | _ => false
  end.

Definition is_floatable (v : pyval) : bool :=
  match v with
  | PFloat _ | PNone => true
  | PInt z => fits_int64 z
  | _ => false
  end.

(** The type of [pd.Series(values)] as [Series.map] builds it from the
    values of a dictionary: integers alone make an integer column;
    integers, floats and [None] make a float column; anything else (a
    [str], a [bool], an integer too large, [None] alone) makes an object
    column.  No value at all makes a float column. *)
Definition series_dtype (vals : list pyval) : dtype :=
  match vals with
  | [] => Float64
  | _ =>
      if forallb is_None vals then Object
      else if forallb is_int64 vals then Int64
      else if forallb is_floatable vals then Float64
      else Object
  end.

(** A value as a float column holds it. *)
Definition to_float64 (v : pyval) : pyval :=
  match v with
  | PInt z => PFloat (Fin (inject_Z z))
  | PNone => nan
  | _ => v
  end.

(** The dissolved frame with its temperature column. *)
Record frame : Type := mkFrame {
  temperature_dtype : dtype;
  rows : list row
}.

(** [india["temperature"] = india["state_name"].map(temp_data)]: a name
    that is not a key of [temp_data] maps to NaN, which turns an integer
    column into a float column; a float column holds [None] as NaN and an
    integer as a float. *)
Definition attach_temperatures (temp_data : dict pyval)
  (india : list (string * geometry)) : frame :=
  let all_found :=
    forallb (fun kg => match dict_get temp_data (fst kg) with
                       | Some _ => true
                       | None => false
                       end) india in
  let column_dtype :=
    match series_dtype (values temp_data) with
    | Int64 => if all_found then Int64 else Float64
    | d => d
    end in
  mkFrame column_dtype
    (map (fun kg =>
            mkRow (fst kg) (snd kg)
                  (match dict_get temp_data (fst kg) with
                   | Some v =>
                       match column_dtype with
                       | Float64 => to_float64 v
                       | _ => v
                       end
                   | None => nan
                   end))
         india).

(** The patches of the choropleth: the flat colour of [missing_kwds] for
    a missing temperature, the colour scale for the others. *)
Definition draw (india : list row) : list (string * geometry * fill) :=
  map (fun r =>
         (state_name r, row_geometry r,
          if isna (temperature r) then LightGrey else YlOrRd (temperature r)))
      india.

(** [india.plot(column="temperature", cmap="YlOrRd", ..., legend=True,
    legend_kwds={"label": ..., "orientation": ..., ...},
    missing_kwds={"color": "lightgrey", "label": "No data"})].  An object
    column is plotted as categories, whose legend does not take the
    colour bar's keywords: the call raises [TypeError]. *)
Definition plot (india : frame) : M (list (string * geometry * fill)) :=
  match temperature_dtype india with
  | Object => raise TypeError
  | _ => ret (draw (rows india))
  end.

(** The labelling loop over [india.iterrows()]. *)
Fixpoint add_labels (india : list row) (texts : list text) : list text :=
  match india with
  | [] => texts
  | r :: rest =>
      if is_not_None (temperature r)
      then add_labels rest
             (texts ++ [mkText (row_geometry r) (state_name r) (temperature r)])
      else add_labels rest texts
  end.

(** [adjust_text] nudges the labels it is given; it adds and removes none
    and leaves their strings alone.  The anchor of a [text] stays the point
    it was created at. *)
Definition adjust_text (texts : list text) : list text := texts.

(** [gpd.read_file(geojson_path)] *)
Definition read_file : M GeoDataFrame :=
  fun s =>
    match india_geojson s with
    | Some india => (Ok india, s)
    | None => (Raise DriverError, s)
    end.

(** [plt.savefig(out_path, dpi=300, bbox_inches="tight")] *)
Definition savefig (fig : figure) : M unit := modify (set_png fig).

(** Plot a heatmap of India states using GeoPandas + Matplotlib, with
    adjusted labels.  The two paths are the ones [main] passes:
    [data/india.geojson] and [data/india_heatmap.png]. *)
Definition plot_heatmap (temp_data : dict pyval) (timestamp : string)
  : M unit :=
  india <- read_file ;;
  (* Standardize state name column *)
  india <- (if mem "name" (columns india)
            then ret (assign_state_name "name" india)
            else if mem "st_nm" (columns india)
            then ret (assign_state_name "st_nm" india)
            else raise (ValueError (columns india))) ;;
  let india := replace_state_name india in
  (* Dissolve polygons by state_name *)
  let india := dissolve india in
  (* Attach temperatures *)
  let india := attach_temperatures temp_data india in
  patches <- plot india ;;
  let fig :=
    mkFigure patches
             (adjust_text (add_labels (rows india) []))
             "Average Temperature by State (India)"
             ("Data extracted: " ++ timestamp) in
  savefig fig ;;
  print HeatmapSaved.

(** *** main *)

(** The body of the [try] of the collection loop. *)
Definition collect_try (state : string) (lat lon : Q) : M unit :=
  temp <- get_current_temp lat lon ;;
  modify (fun s => set_results (dict_set (results s) state temp) s) ;;
  (if supports_format_spec temp then print (Reading state temp)
   else raise TypeError).

(** The [except Exception as e] branch. *)
Definition collect_except (state : string) (e : exn) : M unit :=
  print (FetchError state e) ;;
  (* ensure state is logged even on failure *)
  modify (fun s => set_results (dict_set (results s) state nan) s).

(** One turn of [for state, (lat, lon) in STATE_CENTROIDS.items()]. *)
Definition collect_region (entry : string * coord) : M unit :=
  let '(state, (lat, lon)) := entry in
  try_except (collect_try state lat lon) (collect_except state).

(** [path.exists()] for the history file and for the boundary file. *)
Definition csv_exists : M bool :=
  get (fun s => match weather_history_csv s with Some _ => true | None => false end).

Definition geojson_exists : M bool :=
  get (fun s => match india_geojson s with Some _ => true | None => false end).

(** [out_file.write_text(json.dumps(results, indent=2))] *)
Definition write_json (d : dict pyval) : M unit := modify (set_json d).

(** [row_df.to_csv(csv_file, mode=..., index=False, header=...)] for the
    one-row frame [row_df]: mode ["a"] keeps what the file holds, mode ["w"]
    starts it afresh; the header row is the column labels. *)
Definition to_csv (row_df : dict pyval) (append : bool) (header : bool)
  : M unit :=
  modify (fun s =>
    let old := if append
               then match weather_history_csv s with
                    | Some rows => rows
                    | None => []
                    end
               else [] in
    set_csv (old ++ (if header then [map PStr (keys row_df)] else [])
                 ++ [values row_df]) s).

Definition main : M unit :=
  modify (set_results []) ;;
  print (Message "Fetching current temperatures...") ;;
  for_each STATE_CENTROIDS collect_region ;;
  results <- get results ;;
  (* Save raw JSON (latest snapshot) *)
  write_json results ;;
  print SavedJson ;;
  (* Append to CSV history *)
  let timestamp := strftime_now "%Y-%m-%d %H:%M:%S" in
  let row_df := dict_merge [("timestamp", PStr timestamp)] results in
  exists_ <- csv_exists ;;
  (if exists_ then to_csv row_df true false else to_csv row_df false true) ;;
  print AppendedCsv ;;
  (* Use uploaded India GeoJSON *)
  exists_ <- geojson_exists ;;
  (if negb exists_ then raise FileNotFoundError else ret tt) ;;
  (* Plot heatmap *)
  let timestamp_full := strftime_now "%Y-%m-%d %H:%M:%S %Z" in
  plot_heatmap results timestamp_full.

End Run.

(** ** Pure readings of the monadic code *)

(** A state with nothing in it, to run a computation for its result. *)
Definition empty_state : state := mkState [] [] [] None None None None.

(** What [get_current_temp] makes of one outcome of the network. *)
Definition fetched (o : http_outcome) : result pyval :=
  fst (get_current_temp (fun _ _ => o) 0 0 empty_state).

(** What the collection loop stores for a region, and what it prints,
    given the result of the region's fetch. *)
Definition recorded (r : result pyval) : pyval :=
  match r with
  | Ok temp => if supports_format_spec temp then temp else nan
  | Raise _ => nan
  end.

Definition logged (region : string) (r : result pyval) : out_line :=
  match r with
  | Ok temp =>
      if supports_format_spec temp then Reading region temp
      else FetchError region TypeError
  | Raise e => FetchError region e
  end.

(** The state after one turn of the loop, and after a run of turns. *)
Definition after_region (net : nat -> coord -> http_outcome)
  (region : string) (c : coord) (s : state) : state :=
  let r := fetched (net (length (requests s)) c) in
  mkState (dict_set (results s) region (recorded r))
          (stdout s ++ [logged region r])
          (requests s ++ [c])
          (current_temps_json s) (weather_history_csv s)
          (india_geojson s) (india_heatmap_png s).

Fixpoint after_regions (net : nat -> coord -> http_outcome)
  (regions : dict coord) (s : state) : state :=
  match regions with
  | [] => s
  | (region, c) :: rest => after_regions net rest (after_region net region c s)
  end.

(** The snapshot of a run whose first request has number [n]. *)
Fixpoint snapshot_of (net : nat -> coord -> http_outcome) (n : nat)
  (regions : dict coord) : dict pyval :=
  match regions with
  | [] => []
  | (region, c) :: rest =>
      (region, recorded (fetched (net n c))) :: snapshot_of net (S n) rest
  end.

(** The column [plot_heatmap] takes the region names from, if any. *)
Definition name_column (india : GeoDataFrame) : option string :=
  if mem "name" (columns india) then Some "name"
  else if mem "st_nm" (columns india) then Some "st_nm"
  else None.

(** The rows [plot_heatmap] draws, and the figure it saves, when the names
    come from the column [src]. *)
Definition joined (temp_data : dict pyval) (india : GeoDataFrame)
  (src : string) : frame :=
  attach_temperatures temp_data
    (dissolve (replace_state_name (assign_state_name src india))).

Definition joined_rows (temp_data : dict pyval) (india : GeoDataFrame)
  (src : string) : list row :=
  rows (joined temp_data india src).

(** Whether the temperature column of that frame is an object column,
    which [plot] takes for categories. *)
Definition categorical (temp_data : dict pyval) (india : GeoDataFrame)
  (src : string) : bool :=
  match temperature_dtype (joined temp_data india src) with
  | Object => true
  | _ => false
  end.

Definition figure_of (temp_data : dict pyval) (timestamp : string)
  (india : GeoDataFrame) (src : string) : figure :=
  mkFigure (draw (joined_rows temp_data india src))
           (adjust_text (add_labels (joined_rows temp_data india src) []))
           "Average Temperature by State (India)"
           ("Data extracted: " ++ timestamp).

(** The one-row frame of the history file and its two lines. *)
Definition row_df_of (timestamp : string) (snapshot : dict pyval)
  : dict pyval :=
  dict_merge [("timestamp", PStr timestamp)] snapshot.

Definition header_line (row_df : dict pyval) : list pyval :=
  map PStr (keys row_df).

Definition data_line (row_df : dict pyval) : list pyval := values row_df.

(** The state once both files are written: [s2] is the state the loop
    ended in. *)
Definition persisted (strftime_now : string -> string) (s2 : state) : state :=
  let row_df := row_df_of (strftime_now "%Y-%m-%d %H:%M:%S") (results s2) in
  mkState (results s2)
          (stdout s2 ++ [SavedJson] ++ [AppendedCsv])
          (requests s2)
          (Some (results s2))
          (Some (match weather_history_csv s2 with
                 | Some rows => rows ++ [data_line row_df]
                 | None => [header_line row_df; data_line row_df]
                 end))
          (india_geojson s2) (india_heatmap_png s2).

(** The state the loop of [main] ends in, from the state [main] starts in. *)
Definition collected (net : nat -> coord -> http_outcome) (s0 : state)
  : state :=
  after_regions net STATE_CENTROIDS
    (add_stdout (Message "Fetching current temperatures...")
                (set_results [] s0)).

(** A decidable check that a list of labels has no repetition. *)
Fixpoint distinct (l : list string) : bool :=
  match l with
  | [] => true
  | k :: l' => negb (mem k l') && distinct l'
  end.

(** ** The statements under test *)

(** The snapshot invariant: exactly the registry's names as keys, each
    once, each bound to a number or to the missing sentinel. *)
Definition snapshot_invariant (snapshot : dict pyval) : Prop :=
  keys snapshot = keys STATE_CENTROIDS
  /\ NoDup (keys snapshot)
  /\ Forall (fun v => is_number v = true \/ v = nan) (values snapshot).

(** The same with the values as the collector leaves them: the sentinel, or
    whatever the console could format, which is a [bool], an [int], a
    [float] or a [str]. *)
Definition snapshot_coverage (snapshot : dict pyval) : Prop :=
  keys snapshot = keys STATE_CENTROIDS
  /\ NoDup (keys snapshot)
  /\ Forall (fun v => v = nan \/ supports_format_spec v = true)
            (values snapshot).

(** The temperature member of the [current_weather] object of a response,
    when the body is an object that has such an object. *)
Definition temperature_field (r : response) : option pyval :=
  match body r with
  | Some (PDict d) =>
      match dict_get d "current_weather" with
      | Some (PDict cw) => dict_get cw "temperature"
      | _ => None
      end
  | _ => None
  end.

(** Whether [.get] can be chained on a parsed body: it is an object, and
    its [current_weather] member, if it has one, is an object too. *)
Definition chainable (data : pyval) : bool :=
  match data with
  | PDict d =>
      match dict_get d "current_weather" with
      | Some (PDict _) | None => true
      | Some _ => false
      end
  | _ => false
  end.

(** The fetcher's three outcomes: the temperature field; [None] when the
    response lacks the field; an exception on a network error, on an error
    status, or on a body that is not JSON. *)
Inductive fetcher_outcomes (o : http_outcome) : result pyval -> Prop :=
| returns_field r t :
    o = Responded r -> temperature_field r = Some t ->
    fetcher_outcomes o (Ok t)
| returns_None r :
    o = Responded r -> temperature_field r = None ->
    fetcher_outcomes o (Ok PNone)
| raises_on_failure e :
    o = NoResponse
    \/ (exists r, o = Responded r
                  /\ (is_error_status (status_code r) = true
                      \/ body r = None)) ->
    fetcher_outcomes o (Raise e).

(** The fetcher's outcomes case by case, with the fourth way to raise: a
    JSON body on which [.get] cannot be chained. *)
Inductive fetcher_contract (o : http_outcome) : result pyval -> Prop :=
| contract_field r t :
    o = Responded r -> is_error_status (status_code r) = false ->
    temperature_field r = Some t ->
    fetcher_contract o (Ok t)
| contract_None r data :
    o = Responded r -> is_error_status (status_code r) = false ->
    body r = Some data -> chainable data = true ->
    temperature_field r = None ->
    fetcher_contract o (Ok PNone)
| contract_network :
    o = NoResponse ->
    fetcher_contract o (Raise RequestException)
| contract_status r :
    o = Responded r -> is_error_status (status_code r) = true ->
    fetcher_contract o (Raise (HTTPError (status_code r)))
| contract_not_json r :
    o = Responded r -> is_error_status (status_code r) = false ->
    body r = None ->
    fetcher_contract o (Raise JSONDecodeError)
| contract_not_chainable r data :
    o = Responded r -> is_error_status (status_code r) = false ->
    body r = Some data -> chainable data = false ->
    fetcher_contract o (Raise AttributeError).



(** The label the loop of [plot_heatmap] makes for a row. *)
Definition label_of (r : row) : text :=
  mkText (row_geometry r) (state_name r) (temperature r).

(** ** Sample runs *)

(** A clock stopped at ten in the morning of 1 January 2024. *)
Definition clock_2024 (fmt : string) : string :=
  if String.eqb fmt "%Y-%m-%d %H:%M:%S" then "2024-01-01 10:00:00"
  else "2024-01-01 10:00:00 IST".

(** A response of the weather API carrying [t] as its temperature. *)
Definition weather_body (t : pyval) : pyval :=
  PDict [ ("timezone", PStr "Asia/Kolkata");
          ("current_weather",
           PDict [ ("time", PStr "2024-01-01T10:00");
                   ("temperature", t);
                   ("windspeed", PFloat (Fin 7.2)) ]) ].

(** No request gets through. *)
Definition net_down : nat -> coord -> http_outcome :=
  fun _ _ => NoResponse.

(** Only the request for Kerala, the thirteenth, is answered: 28.5. *)
Definition net_kerala : nat -> coord -> http_outcome :=
  fun n _ =>
    if Nat.eqb n 12
    then Responded (mkResponse 200 (Some (weather_body (PFloat (Fin 28.5)))))
    else NoResponse.

(** Every request is answered, with a temperature that is a string. *)
Definition net_text : nat -> coord -> http_outcome :=
  fun _ _ => Responded (mkResponse 200 (Some (weather_body (PStr "hot")))).

(** Every request is answered, with an object that has no
    [current_weather]. *)
Definition net_no_field : nat -> coord -> http_outcome :=
  fun _ _ => Responded (mkResponse 200 (Some (PDict [("timezone", PStr "GMT")]))).

(** Every request is answered, with a null for [current_weather]. *)
Definition net_null_conditions : nat -> coord -> http_outcome :=
  fun _ _ =>
    Responded (mkResponse 200 (Some (PDict [("current_weather", PNone)]))).

Definition square (x y : Q) : geometry :=
  Rings [[(x, y); (x + 1, y); (x + 1, y + 1); (x, y + 1)]%Q].

(** A boundary file with its names under [st_nm]: Punjab, Kerala, and the
    union territory under its long name, in two parts. *)
Definition boundary_st_nm : GeoDataFrame :=
  mkGeoDataFrame ["st_nm"; "geometry"]
    [ mkFeature [("st_nm", Some "Punjab")] (square 75 31);
      mkFeature [("st_nm", Some "Kerala")] (square 76 10);
      mkFeature [("st_nm", Some "Dadra and Nagar Haveli and Daman and Diu")]
                (square 73 20);
      mkFeature [("st_nm", Some "Dadra and Nagar Haveli and Daman and Diu")]
                (square 72 20) ].

(** A boundary file with no column of names. *)
Definition boundary_unnamed : GeoDataFrame :=
  mkGeoDataFrame ["id"; "geometry"]
    [ mkFeature [("id", Some "32")] (square 76 10) ].

(** A first run, with nothing under [data/]; a first run with a boundary
    file in place; a later run, with one line of history already there. *)
Definition first_run : state := empty_state.

Definition first_run_with (india : GeoDataFrame) : state :=
  mkState [] [] [] None None (Some india) None.

Definition later_run : state :=
  mkState [] [] [] (Some [("Kerala", PFloat (Fin 27.0))])
          (Some [[PStr "timestamp"; PStr "Kerala"];
                 [PStr "2023-12-31 10:00:00"; PFloat (Fin 27.0)]])
          None None.

(** ** Further readings of the code *)

(** The console lines of the loop, for a run whose first request has
    number [n]: one per region. *)
Fixpoint log_of (net : nat -> coord -> http_outcome) (n : nat)
  (regions : dict coord) : list out_line :=
  match regions with
  | [] => []
  | (region, c) :: rest =>
      logged region (fetched (net n c)) :: log_of net (S n) rest
  end.

(** Whether the boundary file of a state is there and has one of the two
    columns of names. *)
Definition renders (s : state) : bool :=
  match india_geojson s with
  | Some india => mem "name" (columns india) || mem "st_nm" (columns india)
  | None => false
  end.

(** What each feature brings to [dissolve] once the names are taken from
    the column [src] and normalized: its name and its geometry. *)
Definition named_parts (src : string) (india : GeoDataFrame)
  : list (option string * geometry) :=
  map (fun f => (rename (column src f), geom f)) (features india).

Definition group_step (groups : list (string * geometry))
  (part : option string * geometry) : list (string * geometry) :=
  match fst part with
  | Some k => group_insert k (snd part) groups
  | None => groups
  end.

(** The temperature [Series.map] attaches to a name, and the fill [plot]
    gives to a temperature. *)
Definition joined_temperature (temp_data : dict pyval) (name : string)
  : pyval :=
  match dict_get temp_data name with
  | Some v => v
  | None => nan
  end.

Definition fill_of (v : pyval) : fill :=
  if isna v then LightGrey else YlOrRd v.

(** The temperature a row of the joined frame holds for a name: the
    value [temp_data] has for it, as a float when the column is a float
    column, and NaN when [temp_data] has none. *)
Definition column_value (temp_data : dict pyval)
  (india : list (string * geometry)) (name : string) : pyval :=
  match dict_get temp_data name with
  | Some v =>
      match temperature_dtype (attach_temperatures temp_data india) with
      | Float64 => to_float64 v
      | _ => v
      end
  | None => nan
  end.

(** [part_of g G]: [g] is [G] or one of the geometries united into [G]. *)
Fixpoint part_of (g G : geometry) : Prop :=
  G = g
  \/ match G with
     | Union a b => part_of g a \/ part_of g b
     | Rings _ => False
     end.

(** The order [dissolve] leaves the names in. *)
Definition precedes (a b : string) : Prop := String.compare a b = Lt.

(** The name, the geometry and the fill of a patch. *)
Definition patch_name (p : string * geometry * fill) : string := fst (fst p).
Definition patch_geometry (p : string * geometry * fill) : geometry :=
  snd (fst p).
Definition patch_fill (p : string * geometry * fill) : fill := snd p.

(** A console line of the loop and a snapshot entry that tell the same
    story: the reading printed is the value stored, and an error printed
    goes with the missing sentinel. *)
Definition line_matches_entry (l : out_line) (entry : string * pyval) : Prop :=
  match l with
  | Reading region temp => entry = (region, temp)
  | FetchError region _ => entry = (region, nan)
  | _ => False
  end.

(** A boundary file with both columns of names, which disagree. *)
Definition boundary_both : GeoDataFrame :=
  mkGeoDataFrame ["st_nm"; "name"; "geometry"]
    [ mkFeature [("st_nm", Some "KL"); ("name", Some "Kerala")]
                (square 76 10);
      mkFeature [("st_nm", Some "XX"); ("name", None)] (square 0 0);
      mkFeature [("st_nm", Some "PB"); ("name", Some "Punjab")]
                (square 75 31);
      mkFeature [("st_nm", Some "KL"); ("name", Some "Kerala")]
                (square 76 9);
      mkFeature [("st_nm", Some "ZZ"); ("name", Some "Atlantis")]
                (square 1 1) ].

(** ** Lemmas on dictionaries *)

Section Dictionaries.

Context {V : Type}.
Implicit Types (d : dict V) (k : string) (v : V).

Lemma mem_In k l : mem k l = true <-> In k l.
Proof.
  unfold mem. rewrite existsb_exists. split.
  - intros [x [Hin Heq]]. apply String.eqb_eq in Heq. now subst.
  - intros Hin. exists k. split; [assumption | apply String.eqb_refl].
Qed.

Lemma distinct_NoDup l : distinct l = true -> NoDup l.
Proof.
  induction l as [|k l IH]; simpl; intros H.
  - constructor.
  - apply andb_true_iff in H. destruct H as [Hk Hl].
    constructor; [|auto].
    intros Hin. apply mem_In in Hin. rewrite Hin in Hk. discriminate.
Qed.

Lemma dict_set_fresh d k v :
  ~ In k (keys d) -> dict_set d k v = d ++ [(k, v)].
Proof.
  induction d as [|[k' v'] d IH]; simpl; intros Hk.
  - reflexivity.
  - destruct (String.eqb_spec k k') as [->|Hne].
    + exfalso. apply Hk. now left.
    + f_equal. apply IH. intros Hin. apply Hk. now right.
Qed.

Lemma dict_set_twice d k v1 v2 :
  dict_set (dict_set d k v1) k v2 = dict_set d k v2.
Proof.
  induction d as [|[k' v'] d IH]; simpl.
  - now rewrite String.eqb_refl.
  - destruct (String.eqb_spec k k') as [->|Hne]; simpl.
    + now rewrite String.eqb_refl.
    + destruct (String.eqb_spec k k'); [contradiction|]. now rewrite IH.
Qed.

Lemma dict_get_set d k v : dict_get (dict_set d k v) k = Some v.
Proof.
  induction d as [|[k' v'] d IH]; simpl.
  - now rewrite String.eqb_refl.
  - destruct (String.eqb_spec k k') as [->|Hne]; simpl.
    + now rewrite String.eqb_refl.
    + destruct (String.eqb_spec k k'); [contradiction|]. exact IH.
Qed.

Lemma dict_get_set_other d k k' v :
  k' <> k -> dict_get (dict_set d k v) k' = dict_get d k'.
Proof.
  intros Hne. induction d as [|[k0 v0] d IH]; simpl.
  - destruct (String.eqb_spec k' k); [contradiction | reflexivity].
  - destruct (String.eqb_spec k k0) as [->|Hk]; simpl.
    + destruct (String.eqb_spec k' k0); [contradiction | reflexivity].
    + destruct (String.eqb_spec k' k0); [reflexivity | exact IH].
Qed.

Lemma dict_get_In d k v : dict_get d k = Some v -> In (k, v) d.
Proof.
  induction d as [|[k0 v0] d IH]; simpl; [discriminate|].
  destruct (String.eqb_spec k k0) as [->|Hne].
  - intros [= ->]. now left.
  - intros H. right. now apply IH.
Qed.

Lemma keys_app d d' : keys (d ++ d') = keys d ++ keys d'.
Proof. unfold keys. apply map_app. Qed.

(** Merging a dictionary into one that shares no key with it, when its own
    keys are distinct, lists the entries of both. *)
Lemma dict_merge_disjoint d1 d2 :
  NoDup (keys d2) ->
  (forall k, In k (keys d2) -> ~ In k (keys d1)) ->
  dict_merge d1 d2 = d1 ++ d2.
Proof.
  unfold dict_merge. revert d1.
  induction d2 as [|[k v] d2 IH]; simpl; intros d1 Hnd Hdis.
  - now rewrite app_nil_r.
  - inversion Hnd as [|? ? Hk Hnd']; subst.
    rewrite dict_set_fresh by (apply Hdis; now left).
    rewrite IH.
    + now rewrite <- app_assoc.
    + exact Hnd'.
    + intros k' Hin. rewrite keys_app. simpl. intros Hin'.
      apply in_app_or in Hin'. destruct Hin' as [Hin'|[<-|[]]].
      * apply (Hdis k'); [now right | exact Hin'].
      * contradiction.
Qed.

End Dictionaries.

(** ** The fetcher and the collection loop, step by step *)

Section Collector.

Variable net : nat -> coord -> http_outcome.

(** A fetch sends one request and does nothing else to the state; its
    result depends on what that request comes back with only. *)
Lemma get_current_temp_run lat lon s :
  get_current_temp net lat lon s
  = (fetched (net (length (requests s)) (lat, lon)), add_request (lat, lon) s).
Proof.
  unfold fetched, get_current_temp, bind, requests_get.
  destruct (net (length (requests s)) (lat, lon)) as [|[code [data|]]];
    simpl; [reflexivity | |].
  - unfold raise_for_status, json; simpl.
    destruct (is_error_status code); simpl; [reflexivity|].
    destruct data as [ | | | | | |d]; simpl; try reflexivity.
    destruct (dict_get d "current_weather") as [cw|]; simpl; [|reflexivity].
    destruct cw as [ | | | | | |d']; simpl; try reflexivity.
    destruct (dict_get d' "temperature"); reflexivity.
  - unfold raise_for_status, json; simpl.
    destruct (is_error_status code); reflexivity.
Qed.

(** The body of the [try] stores what the fetch returned before it prints. *)
Lemma collect_try_run region lat lon s :
  collect_try net region lat lon s
  = match fetched (net (length (requests s)) (lat, lon)) with
    | Ok temp =>
        let s' := set_results (dict_set (results s) region temp)
                              (add_request (lat, lon) s) in
        if supports_format_spec temp
        then (Ok tt, add_stdout (Reading region temp) s')
        else (Raise TypeError, s')
    | Raise e => (Raise e, add_request (lat, lon) s)
    end.
Proof.
  unfold collect_try, bind. rewrite get_current_temp_run.
  destruct (fetched _) as [temp|e]; simpl; [|reflexivity].
  destruct (supports_format_spec temp); reflexivity.
Qed.

(** One turn of the loop never raises. *)
Lemma collect_region_run region c s :
  collect_region net (region, c) s = (Ok tt, after_region net region c s).
Proof.
  destruct c as [lat lon]. unfold collect_region, try_except.
  rewrite collect_try_run. unfold after_region.
  destruct (fetched _) as [temp|e]; simpl.
  - destruct (supports_format_spec temp); simpl.
    + reflexivity.
    + unfold collect_except, bind, print, modify; simpl.
      now rewrite dict_set_twice.
  - reflexivity.
Qed.

(** Neither does the loop, whatever the network does. *)
Lemma collect_loop_run regions s :
  for_each regions (collect_region net) s
  = (Ok tt, after_regions net regions s).
Proof.
  revert s. induction regions as [|[region c] rest IH]; intros s.
  - reflexivity.
  - cbn [for_each]. unfold bind. rewrite collect_region_run. apply IH.
Qed.

Lemma after_regions_app rs1 rs2 s :
  after_regions net (rs1 ++ rs2) s
  = after_regions net rs2 (after_regions net rs1 s).
Proof.
  revert s. induction rs1 as [|[region c] rs1 IH]; intros s; simpl; auto.
Qed.

Lemma after_regions_requests regions s :
  requests (after_regions net regions s) = requests s ++ values regions.
Proof.
  revert s. induction regions as [|[region c] rest IH]; intros s; simpl.
  - now rewrite app_nil_r.
  - rewrite IH. simpl. now rewrite <- app_assoc.
Qed.

Lemma after_regions_files regions s :
  current_temps_json (after_regions net regions s) = current_temps_json s
  /\ weather_history_csv (after_regions net regions s) = weather_history_csv s
  /\ india_geojson (after_regions net regions s) = india_geojson s
  /\ india_heatmap_png (after_regions net regions s) = india_heatmap_png s.
Proof.
  revert s. induction regions as [|[region c] rest IH]; intros s; simpl.
  - repeat split.
  - destruct (IH (after_region net region c s)) as (H1 & H2 & H3 & H4).
    rewrite H1, H2, H3, H4. repeat split.
Qed.

Lemma snapshot_of_keys n regions :
  keys (snapshot_of net n regions) = keys regions.
Proof.
  revert n. induction regions as [|[region c] rest IH]; intros n; simpl.
  - reflexivity.
  - now rewrite IH.
Qed.

(** With distinct region names, none of them a key yet, the loop adds one
    entry per region, in the order of the registry. *)
Lemma after_regions_results regions s :
  NoDup (keys regions) ->
  (forall k, In k (keys regions) -> ~ In k (keys (results s))) ->
  results (after_regions net regions s)
  = results s ++ snapshot_of net (length (requests s)) regions.
Proof.
  revert s. induction regions as [|[region c] rest IH]; intros s Hnd Hfresh.
  - simpl. now rewrite app_nil_r.
  - inversion Hnd as [|? ? Hk Hnd']; subst. simpl.
    rewrite IH; simpl.
    + rewrite dict_set_fresh by (apply Hfresh; now left).
      rewrite <- app_assoc. simpl. rewrite length_app. simpl.
      now rewrite Nat.add_1_r.
    + exact Hnd'.
    + intros k Hin.
      rewrite dict_set_fresh by (apply Hfresh; now left).
      rewrite keys_app. simpl. intros Hin'.
      apply in_app_or in Hin'. destruct Hin' as [Hin'|[<-|[]]].
      * apply (Hfresh k); [now right | exact Hin'].
      * contradiction.
Qed.

(** A later turn leaves the entry of an earlier region alone. *)
Lemma after_regions_get_other regions s k :
  ~ In k (keys regions) ->
  dict_get (results (after_regions net regions s)) k = dict_get (results s) k.
Proof.
  revert s. induction regions as [|[region c] rest IH]; intros s Hk; simpl.
  - reflexivity.
  - rewrite IH by (intros Hin; apply Hk; now right). simpl.
    apply dict_get_set_other. intros ->. apply Hk. now left.
Qed.

Lemma STATE_CENTROIDS_distinct : NoDup (keys STATE_CENTROIDS).
Proof. apply distinct_NoDup. vm_compute. reflexivity. Qed.

End Collector.

(** ** The renderer and the whole run, step by step *)

Section Program.

Variable net : nat -> coord -> http_outcome.
Variable strftime_now : string -> string.

Lemma plot_heatmap_run temp_data timestamp s :
  plot_heatmap temp_data timestamp s
  = match india_geojson s with
    | None => (Raise DriverError, s)
    | Some india =>
        match name_column india with
        | Some src =>
            if categorical temp_data india src then (Raise TypeError, s)
            else
              (Ok tt,
               add_stdout HeatmapSaved
                 (set_png (figure_of temp_data timestamp india src) s))
        | None => (Raise (ValueError (columns india)), s)
        end
    end.
Proof.
  unfold plot_heatmap, bind, read_file, name_column.
  destruct (india_geojson s) as [india|]; [|reflexivity].
  destruct (mem "name" (columns india)).
  - unfold ret, plot, categorical, figure_of, joined_rows, joined.
    destruct (temperature_dtype _); reflexivity.
  - destruct (mem "st_nm" (columns india)); [|reflexivity].
    unfold ret, plot, categorical, figure_of, joined_rows, joined.
    destruct (temperature_dtype _); reflexivity.
Qed.

Lemma main_run s0 :
  main net strftime_now s0
  = let s4 := persisted strftime_now (collected net s0) in
    match india_geojson s0 with
    | None => (Raise FileNotFoundError, s4)
    | Some _ =>
        plot_heatmap (results s4) (strftime_now "%Y-%m-%d %H:%M:%S %Z") s4
    end.
Proof.
  unfold main, bind, print, modify. cbv beta iota.
  rewrite collect_loop_run. cbv beta iota.
  destruct (after_regions_files net STATE_CENTROIDS
    (add_stdout (Message "Fetching current temperatures...")
                (set_results [] s0))) as (_ & Hcsv & Hgeo & _).
  fold (collected net s0) in Hcsv, Hgeo |- *.
  cbn [weather_history_csv india_geojson add_stdout set_results] in Hcsv, Hgeo.
  rewrite <- Hgeo.
  generalize dependent (collected net s0). intros s2 _ _.
  unfold get, write_json, csv_exists, geojson_exists, to_csv, modify,
    persisted, row_df_of, header_line, data_line.
  destruct s2 as [res out reqs js csv geo png]; cbn -[plot_heatmap].
  destruct csv as [rows|]; destruct geo as [india|]; cbn -[plot_heatmap];
    unfold add_stdout, set_csv, set_json; cbn -[plot_heatmap];
    rewrite <- ?app_assoc; reflexivity.
Qed.

(** The loop of [main] starts from an empty [results], so its snapshot
    is the registry, region by region. *)
Lemma collected_results s0 :
  results (collected net s0)
  = snapshot_of net (length (requests s0)) STATE_CENTROIDS.
Proof.
  unfold collected. rewrite after_regions_results.
  - reflexivity.
  - exact STATE_CENTROIDS_distinct.
  - intros k _ [].
Qed.

Lemma collected_files s0 :
  weather_history_csv (collected net s0) = weather_history_csv s0
  /\ india_geojson (collected net s0) = india_geojson s0
  /\ india_heatmap_png (collected net s0) = india_heatmap_png s0.
Proof.
  unfold collected.
  destruct (after_regions_files net STATE_CENTROIDS
    (add_stdout (Message "Fetching current temperatures...")
                (set_results [] s0))) as (_ & H2 & H3 & H4).
  rewrite H2, H3, H4. repeat split.
Qed.

(** Where a run ends: with both files written in every case, and with the
    image written when, and only when, the boundary file is there, has a
    column of names, and the snapshot makes a column of numbers. *)
Lemma main_outcome s0 :
  let s4 := persisted strftime_now (collected net s0) in
  main net strftime_now s0
  = match india_geojson s0 with
    | None => (Raise FileNotFoundError, s4)
    | Some india =>
        match name_column india with
        | None => (Raise (ValueError (columns india)), s4)
        | Some src =>
            if categorical (results s4) india src then (Raise TypeError, s4)
            else
              (Ok tt,
               add_stdout HeatmapSaved
                 (set_png (figure_of (results s4)
                             (strftime_now "%Y-%m-%d %H:%M:%S %Z") india src)
                          s4))
        end
    end.
Proof.
  intros s4. rewrite main_run. fold s4.
  destruct (india_geojson s0) as [india|] eqn:Hgeo; [|reflexivity].
  rewrite plot_heatmap_run.
  assert (Hgeo4 : india_geojson s4 = Some india).
  { unfold s4, persisted. cbn [india_geojson].
    destruct (collected_files s0) as (_ & -> & _). exact Hgeo. }
  rewrite Hgeo4. reflexivity.
Qed.

(** Whatever the outcome, the final state holds the snapshot of the loop,
    in [results] and in the snapshot file, and the history file as the
    persistence step left it. *)
Lemma main_persisted s0 :
  let final := snd (main net strftime_now s0) in
  let s4 := persisted strftime_now (collected net s0) in
  results final = results (collected net s0)
  /\ requests final = requests (collected net s0)
  /\ current_temps_json final = Some (results (collected net s0))
  /\ weather_history_csv final = weather_history_csv s4.
Proof.
  intros final s4. unfold final. rewrite main_outcome. fold s4.
  assert (H4 : results s4 = results (collected net s0)
               /\ requests s4 = requests (collected net s0)
               /\ current_temps_json s4 = Some (results (collected net s0))).
  { unfold s4, persisted. generalize (collected net s0). intros c.
    cbn [results requests current_temps_json]. auto. }
  clearbody s4. generalize dependent (collected net s0). intros c H4.
  destruct (india_geojson s0) as [india|];
    [destruct (name_column india) as [src|];
     [destruct (categorical (results s4) india src)|]|];
    unfold add_stdout, set_png;
    cbn [snd results requests current_temps_json weather_history_csv];
    intuition auto.
Qed.

Lemma recorded_not_None r : recorded r <> PNone.
Proof.
  destruct r as [temp|e]; simpl; [|discriminate].
  destruct temp; simpl; discriminate.
Qed.

Lemma snapshot_of_no_None n regions :
  Forall (fun v => v <> PNone) (values (snapshot_of net n regions)).
Proof.
  revert n. induction regions as [|[region c] rest IH]; intros n; simpl.
  - constructor.
  - constructor; [apply recorded_not_None | apply IH].
Qed.

Lemma snapshot_of_supported n regions :
  Forall (fun v => v = nan \/ supports_format_spec v = true)
         (values (snapshot_of net n regions)).
Proof.
  revert n. induction regions as [|[region c] rest IH]; intros n; simpl.
  - constructor.
  - constructor; [|apply IH].
    destruct (fetched (net n c)) as [temp|e]; simpl; [|now left].
    destruct (supports_format_spec temp) eqn:H; [now right | now left].
Qed.

End Program.

(** ** The labelling loop *)

Lemma add_labels_all india acc :
  Forall (fun r => temperature r <> PNone) india ->
  add_labels india acc = acc ++ map label_of india.
Proof.
  revert acc. induction india as [|r rest IH]; intros acc H; simpl.
  - now rewrite app_nil_r.
  - inversion H as [|? ? Hr Hrest]; subst.
    destruct (temperature r) eqn:Ht; try contradiction; simpl;
      rewrite IH by assumption; rewrite <- app_assoc;
      unfold label_of; rewrite Ht; reflexivity.
Qed.

Lemma to_float64_not_None v : to_float64 v <> PNone.
Proof. destruct v; simpl; discriminate. Qed.

Lemma attach_temperatures_no_None temp_data india :
  Forall (fun v => v <> PNone) (values temp_data) ->
  Forall (fun r => temperature r <> PNone)
         (rows (attach_temperatures temp_data india)).
Proof.
  intros Hd. unfold attach_temperatures. cbn [rows]. apply Forall_map.
  apply Forall_forall. intros [k g] _. cbn [temperature fst snd].
  destruct (dict_get temp_data k) as [v|] eqn:Hget; [|discriminate].
  apply dict_get_In in Hget.
  rewrite Forall_forall in Hd.
  assert (Hv : v <> PNone).
  { apply Hd. unfold values. change v with (snd (k, v)). now apply in_map. }
  destruct (match series_dtype (values temp_data) with
            | Int64 => _ | Float64 => _ | Object => _ end);
    try exact Hv. apply to_float64_not_None.
Qed.

(** ** More on the loop and on the persistence step *)

Section Snapshot.

Variable net : nat -> coord -> http_outcome.
Variable strftime_now : string -> string.

(** The entry of a region after the whole loop is the one its own turn
    wrote. *)
Lemma loop_entry (regions pre post : dict coord) region c s0 :
  NoDup (keys regions) ->
  regions = pre ++ (region, c) :: post ->
  let s1 := after_regions net pre s0 in
  after_regions net regions s0
  = after_regions net post (after_region net region c s1)
  /\ dict_get (results (after_regions net regions s0)) region
     = Some (recorded (fetched (net (length (requests s1)) c))).
Proof.
  intros Hnd -> s1.
  assert (Happ : after_regions net (pre ++ (region, c) :: post) s0
                 = after_regions net post (after_region net region c s1)).
  { rewrite after_regions_app. reflexivity. }
  split; [exact Happ|]. rewrite Happ.
  rewrite after_regions_get_other.
  - unfold after_region. cbn [results]. apply dict_get_set.
  - rewrite keys_app in Hnd. apply NoDup_remove_2 in Hnd.
    intros Hin. apply Hnd. apply in_or_app. now right.
Qed.

(** The result of a fetch seen from the state it starts in. *)
Lemma fetch_result lat lon s :
  fst (get_current_temp net lat lon s)
  = fetched (net (length (requests s)) (lat, lon)).
Proof. now rewrite get_current_temp_run. Qed.

(** If every fetch raises, so does every request's reading. *)
Lemma all_fail_fetched :
  (forall lat lon s, exists e, fst (get_current_temp net lat lon s) = Raise e) ->
  forall n c, exists e, fetched (net n c) = Raise e.
Proof.
  intros H n [lat lon].
  destruct (H lat lon (mkState [] [] (repeat (lat, lon) n) None None None None))
    as [e He].
  rewrite fetch_result in He. cbn [requests] in He.
  rewrite repeat_length in He. now exists e.
Qed.

Lemma snapshot_of_all_fail n regions :
  (forall m c, exists e, fetched (net m c) = Raise e) ->
  snapshot_of net n regions = map (fun kc => (fst kc, nan)) regions.
Proof.
  intros H. revert n.
  induction regions as [|[region c] rest IH]; intros n; simpl.
  - reflexivity.
  - destruct (H n c) as [e ->]. simpl. now rewrite IH.
Qed.

Lemma timestamp_not_a_region : ~ In "timestamp" (keys STATE_CENTROIDS).
Proof. intros H. apply mem_In in H. vm_compute in H. discriminate. Qed.

(** The frame of the history row: the timestamp, then the snapshot. *)
Lemma row_df_of_snapshot timestamp n :
  row_df_of timestamp (snapshot_of net n STATE_CENTROIDS)
  = ("timestamp", PStr timestamp) :: snapshot_of net n STATE_CENTROIDS.
Proof.
  unfold row_df_of. rewrite dict_merge_disjoint.
  - reflexivity.
  - rewrite snapshot_of_keys. exact STATE_CENTROIDS_distinct.
  - intros k Hk. rewrite snapshot_of_keys in Hk.
    intros [<-|[]]. now apply timestamp_not_a_region.
Qed.

(** The history file after the persistence step. *)
Lemma history_written s0 :
  let snapshot := snapshot_of net (length (requests s0)) STATE_CENTROIDS in
  let line := PStr (strftime_now "%Y-%m-%d %H:%M:%S") :: values snapshot in
  weather_history_csv (persisted strftime_now (collected net s0))
  = Some (match weather_history_csv s0 with
          | Some rows => rows ++ [line]
          | None => [map PStr ("timestamp" :: keys STATE_CENTROIDS); line]
          end).
Proof.
  intros snapshot line. unfold persisted. cbn [weather_history_csv].
  destruct (collected_files net s0) as (-> & _ & _).
  rewrite collected_results. fold snapshot.
  unfold snapshot at 1 2 3. rewrite row_df_of_snapshot. fold snapshot.
  unfold header_line, data_line. cbn [keys values map fst snd].
  fold (keys snapshot). fold (values snapshot).
  unfold snapshot at 2. rewrite snapshot_of_keys. reflexivity.
Qed.

End Snapshot.

(** ** The collector *)

Section CollectorClaims.

Variable net : nat -> coord -> http_outcome.
Variable strftime_now : string -> string.

(** C1, as amended.  After every run the snapshot, in [results] and in the
    snapshot file alike, has exactly the registry's region names as keys, in
    registry order and each once, whatever the fetches did.  Each value is
    the missing sentinel or the value the region's fetch returned, which is
    then a [bool], an [int], a [float] or a [str]: the loop stores what the
    API sent without checking that it is a number. *)
Theorem snapshot_covers_registry s0 :
  let final := snd (main net strftime_now s0) in
  snapshot_coverage (results final)
  /\ current_temps_json final = Some (results final)
  /\ results final = snapshot_of net (length (requests s0)) STATE_CENTROIDS.
Proof.
  intros final.
  destruct (main_persisted net strftime_now s0) as (Hres & _ & Hjson & _).
  fold final in Hres, Hjson. rewrite Hjson, Hres, collected_results.
  split; [|split; reflexivity].
  unfold snapshot_coverage. rewrite snapshot_of_keys.
  split; [reflexivity|]. split.
  - exact STATE_CENTROIDS_distinct.
  - apply snapshot_of_supported.
Qed.

(** C2.  When the fetch of a region raises, whatever the exception, the
    turn of that region ends normally with the missing sentinel recorded
    for it; the loop goes on with the regions after it, sends a request
    for each of them, ends normally, and the sentinel is still the
    region's entry when it ends. *)
Theorem fetch_failure_does_not_abort (pre post : dict coord) region lat lon
  s0 e :
  STATE_CENTROIDS = pre ++ (region, (lat, lon)) :: post ->
  let s1 := snd (for_each pre (collect_region net) s0) in
  fst (get_current_temp net lat lon s1) = Raise e ->
  let turn := collect_region net (region, (lat, lon)) s1 in
  let loop := for_each STATE_CENTROIDS (collect_region net) s0 in
  fst turn = Ok tt
  /\ dict_get (results (snd turn)) region = Some nan
  /\ loop = for_each post (collect_region net) (snd turn)
  /\ fst loop = Ok tt
  /\ requests (snd loop) = requests (snd turn) ++ values post
  /\ dict_get (results (snd loop)) region = Some nan.
Proof.
  intros Hsplit s1 Hraise turn loop.
  unfold turn, loop, s1 in *. clear turn loop s1.
  rewrite collect_loop_run in *. cbn [snd] in *.
  rewrite fetch_result in Hraise.
  rewrite collect_region_run, !collect_loop_run. cbn [fst snd].
  destruct (loop_entry net STATE_CENTROIDS pre post region (lat, lon) s0
              STATE_CENTROIDS_distinct Hsplit) as [Hloop Hentry].
  cbv zeta in Hloop, Hentry. rewrite Hraise in Hentry. cbn [recorded] in Hentry.
  rewrite Hentry, Hloop.
  repeat split.
  - unfold after_region. cbn [results]. rewrite Hraise. apply dict_get_set.
  - apply after_regions_requests.
Qed.

(** C9.  When the fetch of a region returns [None], the body of the [try]
    stores [None] for the region and then raises [TypeError] on formatting
    it; the turn still ends normally, with the entry overwritten by the
    missing sentinel, which is what the snapshot holds for the region when
    the loop ends. *)
Theorem None_reading_recorded_as_nan (pre post : dict coord) region lat lon
  s0 :
  STATE_CENTROIDS = pre ++ (region, (lat, lon)) :: post ->
  let s1 := snd (for_each pre (collect_region net) s0) in
  fst (get_current_temp net lat lon s1) = Ok PNone ->
  let tried := collect_try net region lat lon s1 in
  let turn := collect_region net (region, (lat, lon)) s1 in
  let loop := for_each STATE_CENTROIDS (collect_region net) s0 in
  fst tried = Raise TypeError
  /\ dict_get (results (snd tried)) region = Some PNone
  /\ fst turn = Ok tt
  /\ dict_get (results (snd turn)) region = Some nan
  /\ dict_get (results (snd loop)) region = Some nan.
Proof.
  intros Hsplit s1 Hnone tried turn loop.
  unfold tried, turn, loop, s1 in *. clear tried turn loop s1.
  rewrite collect_loop_run in *. cbn [snd] in *.
  rewrite fetch_result in Hnone.
  rewrite collect_try_run, collect_region_run, collect_loop_run.
  destruct (loop_entry net STATE_CENTROIDS pre post region (lat, lon) s0
              STATE_CENTROIDS_distinct Hsplit) as [_ Hentry].
  cbv zeta in Hentry. rewrite Hnone in Hentry.
  rewrite Hnone. cbn [fst snd supports_format_spec recorded] in *.
  repeat split.
  - unfold set_results. cbn [results]. apply dict_get_set.
  - unfold after_region. cbn [results]. rewrite Hnone. apply dict_get_set.
  - exact Hentry.
Qed.

End CollectorClaims.

(** ** The persistence writer *)

Section PersistenceClaims.

Variable net : nat -> coord -> http_outcome.
Variable strftime_now : string -> string.

(** C4.  If every call of the fetcher raises, then every value of the
    snapshot is the missing sentinel, and the persistence step is carried
    out all the same: the snapshot file holds that snapshot and the history
    file has gained the row of the run, a timestamp followed by one
    sentinel per region. *)
Theorem all_fetches_fail s0 :
  (forall lat lon s, exists e, fst (get_current_temp net lat lon s) = Raise e) ->
  let final := snd (main net strftime_now s0) in
  let line := PStr (strftime_now "%Y-%m-%d %H:%M:%S")
              :: map (fun _ => nan) STATE_CENTROIDS in
  keys (results final) = keys STATE_CENTROIDS
  /\ Forall (fun v => v = nan) (values (results final))
  /\ current_temps_json final = Some (results final)
  /\ weather_history_csv final
     = Some (match weather_history_csv s0 with
             | Some rows => rows ++ [line]
             | None => [map PStr ("timestamp" :: keys STATE_CENTROIDS); line]
             end).
Proof.
  intros Hfail final line.
  destruct (main_persisted net strftime_now s0) as (Hres & _ & Hjson & Hcsv).
  fold final in Hres, Hjson, Hcsv.
  rewrite Hjson, Hcsv, Hres, history_written, collected_results.
  rewrite snapshot_of_all_fail by (apply all_fail_fetched; exact Hfail).
  unfold line, keys, values. rewrite !map_map. cbn [fst snd].
  repeat split. apply Forall_map. apply Forall_forall. reflexivity.
Qed.

(** C5.  Each run adds exactly one data row to the history file, with
    [1 + len(STATE_CENTROIDS)] cells: the timestamp, then the snapshot's
    values.  If the file did not exist it now holds a header row (as wide
    as the data row: ["timestamp"], then the region names) followed by the
    data row; otherwise it holds what it held, followed by the data row
    and no header. *)
Theorem history_row_appended s0 :
  let final := snd (main net strftime_now s0) in
  let line := PStr (strftime_now "%Y-%m-%d %H:%M:%S")
              :: values (results final) in
  let header := map PStr ("timestamp" :: keys STATE_CENTROIDS) in
  length line = 1 + length STATE_CENTROIDS
  /\ length header = 1 + length STATE_CENTROIDS
  /\ weather_history_csv final
     = Some (match weather_history_csv s0 with
             | Some rows => rows ++ [line]
             | None => [header; line]
             end).
Proof.
  intros final line header.
  destruct (main_persisted net strftime_now s0) as (Hres & _ & _ & Hcsv).
  fold final in Hres, Hcsv.
  unfold line, header. rewrite Hcsv, Hres, history_written, collected_results.
  split; [|split; [|reflexivity]].
  - cbn [length]. unfold values. rewrite length_map.
    fold (keys (snapshot_of net (length (requests s0)) STATE_CENTROIDS)).
    rewrite <- (length_map fst
      (snapshot_of net (length (requests s0)) STATE_CENTROIDS)).
    fold (keys (snapshot_of net (length (requests s0)) STATE_CENTROIDS)).
    rewrite snapshot_of_keys. unfold keys. now rewrite length_map.
  - rewrite length_map. cbn [length]. unfold keys. now rewrite length_map.
Qed.

(** C10.  The snapshot file and the history file are written before the
    boundary file is looked for: a run without a boundary file ends in
    [FileNotFoundError] with the snapshot of the run in the snapshot file
    and the row of the run at the end of the history file, and with no
    image written. *)
Theorem persistence_precedes_boundary_check s0 :
  india_geojson s0 = None ->
  let run := main net strftime_now s0 in
  let line := PStr (strftime_now "%Y-%m-%d %H:%M:%S")
              :: values (results (snd run)) in
  fst run = Raise FileNotFoundError
  /\ keys (results (snd run)) = keys STATE_CENTROIDS
  /\ current_temps_json (snd run) = Some (results (snd run))
  /\ weather_history_csv (snd run)
     = Some (match weather_history_csv s0 with
             | Some rows => rows ++ [line]
             | None => [map PStr ("timestamp" :: keys STATE_CENTROIDS); line]
             end)
  /\ india_heatmap_png (snd run) = india_heatmap_png s0.
Proof.
  intros Hgeo run line.
  destruct (main_persisted net strftime_now s0) as (Hres & _ & Hjson & Hcsv).
  fold run in Hres, Hjson, Hcsv.
  unfold line. rewrite Hjson, Hcsv, Hres, history_written, collected_results.
  rewrite snapshot_of_keys.
  assert (Hrun : run = (Raise FileNotFoundError,
                        persisted strftime_now (collected net s0))).
  { unfold run. rewrite main_outcome. cbv zeta. now rewrite Hgeo. }
  rewrite Hrun. cbn [fst snd]. unfold persisted. cbn [india_heatmap_png].
  destruct (collected_files net s0) as (_ & _ & ->).
  repeat split.
Qed.

End PersistenceClaims.

(** ** The weather fetcher *)

Lemma fetched_contract o : fetcher_contract o (fetched o).
Proof.
  unfold fetched, get_current_temp, bind, requests_get.
  destruct o as [|[code b]]; cbn [fst length requests empty_state].
  - now constructor.
  - unfold raise_for_status, json. cbn [status_code].
    destruct (is_error_status code) eqn:Hcode; cbn [fst raise ret].
    + now apply (contract_status _ (mkResponse code b)).
    + destruct b as [data|]; cbn [fst raise ret body].
      2: now apply (contract_not_json _ (mkResponse code None)).
      destruct data as [ | | | | | |d];
        try (cbn [py_get raise fst];
             now apply (contract_not_chainable _ (mkResponse code (Some _)) _
                          eq_refl Hcode eq_refl)).
      unfold py_get at 1.
      destruct (dict_get d "current_weather") as [cw|] eqn:Hcw;
        cbn [ret fst].
      * destruct cw as [ | | | | | |d'];
          try (cbn [py_get raise fst];
               apply (contract_not_chainable _
                        (mkResponse code (Some (PDict d))) _
                        eq_refl Hcode eq_refl);
               cbn [chainable]; now rewrite Hcw).
        cbn [py_get].
        destruct (dict_get d' "temperature") as [t|] eqn:Ht; cbn [ret fst].
        -- apply (contract_field _ (mkResponse code (Some (PDict d))) t
                    eq_refl Hcode).
           unfold temperature_field. cbn [body].
           now rewrite Hcw.
        -- apply (contract_None _ (mkResponse code (Some (PDict d))) (PDict d)
                    eq_refl Hcode eq_refl).
           ++ cbn [chainable]. now rewrite Hcw.
           ++ unfold temperature_field. cbn [body].
              now rewrite Hcw.
      * cbn [py_get dict_get ret fst].
        apply (contract_None _ (mkResponse code (Some (PDict d))) (PDict d)
                 eq_refl Hcode eq_refl).
        -- cbn [chainable]. now rewrite Hcw.
        -- unfold temperature_field. cbn [body].
           now rewrite Hcw.
Qed.

Section FetcherClaims.

Variable net : nat -> coord -> http_outcome.

(** C8, as amended.  For every coordinate pair the fetcher sends exactly
    one request and touches nothing else, and what comes back decides its
    result: it raises on a network error, on a 4xx or 5xx status, on a body
    that is not JSON, and also on a JSON body that is not an object or
    whose [current_weather] member is not an object; otherwise it returns
    the [temperature] member of the [current_weather] object, and [None]
    when either member is absent. *)
Theorem fetcher_meets_contract lat lon s :
  let run := get_current_temp net lat lon s in
  fetcher_contract (net (length (requests s)) (lat, lon)) (fst run)
  /\ snd run = add_request (lat, lon) s
  /\ requests (snd run) = requests s ++ [(lat, lon)].
Proof.
  intros run. unfold run. rewrite get_current_temp_run. cbn [fst snd].
  split; [apply fetched_contract | split; reflexivity].
Qed.

End FetcherClaims.

(** ** The map renderer *)

Lemma column_after_set (f : feature) c v :
  column c (mkFeature (dict_set (properties f) c v) (geom f)) = v.
Proof. unfold column. cbn [properties]. now rewrite dict_get_set. Qed.

Lemma rename_twice name : rename (rename name) = rename name.
Proof.
  destruct name as [s|]; [|reflexivity]. cbn [rename].
  destruct (String.eqb s "Dadra and Nagar Haveli and Daman and Diu") eqn:Hs.
  - reflexivity.
  - cbn [rename]. now rewrite Hs.
Qed.

(** C6.  The rename mapping is idempotent, on a single name (whatever the
    name, a null included) and on the name column of a whole boundary
    dataset: applying it twice gives what applying it once gives. *)
Theorem rename_idempotent :
  (forall name, rename (rename name) = rename name)
  /\ (forall india,
        replace_state_name (replace_state_name india)
        = replace_state_name india).
Proof.
  split; [exact rename_twice|].
  intros [cols feats]. unfold replace_state_name. cbn [columns features].
  f_equal. rewrite map_map. apply map_ext. intros f.
  rewrite column_after_set. cbn [properties geom].
  now rewrite dict_set_twice, rename_twice.
Qed.

Section RendererClaims.

Variable net : nat -> coord -> http_outcome.
Variable strftime_now : string -> string.

Lemma persisted_keeps (clock : string -> string) (c : state) :
  results (persisted clock c) = results c
  /\ india_heatmap_png (persisted clock c) = india_heatmap_png c.
Proof. split; reflexivity. Qed.





(** Every row of the joined frame is labelled when no value of the
    snapshot is [None], which is so for every snapshot the loop builds. *)
Lemma every_row_labelled s0 india src :
  let snapshot := results (collected net s0) in
  texts (figure_of snapshot (strftime_now "%Y-%m-%d %H:%M:%S %Z") india src)
  = map label_of (joined_rows snapshot india src).
Proof.
  intros snapshot. unfold figure_of, adjust_text. cbn [texts].
  rewrite add_labels_all; [reflexivity|].
  unfold joined_rows, joined. apply attach_temperatures_no_None.
  unfold snapshot. rewrite collected_results. apply snapshot_of_no_None.
Qed.

End RendererClaims.

(** C3.  A run in which only Kerala gets a reading, drawn over a boundary
    file that has Punjab: Punjab is filled with the flat grey of "no data",
    and yet a label is laid over it, showing its name and the sentinel.
    The guard of the labelling loop tests for [None], and a missing
    temperature is NaN. *)
Theorem label_drawn_for_missing_reading :
  let run := main net_kerala clock_2024 (first_run_with boundary_st_nm) in
  exists fig,
    india_heatmap_png (snd run) = Some fig
    /\ dict_get (results (snd run)) "Punjab" = Some nan
    /\ In ("Punjab", square 75 31, LightGrey) (patches fig)
    /\ In (mkText (square 75 31) "Punjab" nan) (texts fig)
    /\ map label_name (texts fig) = ["D&D"; "Kerala"; "Punjab"].
Proof.
  cbv zeta. eexists. split; [vm_compute; reflexivity|].
  split; [vm_compute; reflexivity|].
  split; [vm_compute; tauto|].
  split; [vm_compute; tauto|].
  vm_compute. reflexivity.
Qed.

(** ** The theorems at work on the sample runs *)

(** C1, as first stated, fails: when the API answers with a temperature
    that is a string, the string is what the snapshot holds. *)
Lemma snapshot_invariant_fails_on_text_reading :
  ~ (forall net strftime_now s0,
       snapshot_invariant (results (snd (main net strftime_now s0)))).
Proof.
  intros H. destruct (H net_text clock_2024 first_run) as (_ & _ & Hvalues).
  vm_compute in Hvalues.
  inversion Hvalues as [|v l [Hnum|Hnan] _]; discriminate.
Qed.

(** C8, as first stated, fails: a JSON body whose [current_weather] is a
    null is not a network error, an error status or a body that is not
    JSON, and the fetcher raises on it instead of returning [None]. *)
Lemma fetcher_outcomes_fail_on_null_conditions :
  ~ (forall net lat lon s,
       fetcher_outcomes (net (length (requests s)) (lat, lon))
                        (fst (get_current_temp net lat lon s))).
Proof.
  intros H. specialize (H net_null_conditions 0%Q 0%Q empty_state).
  vm_compute in H.
  inversion H as [ | | e [Hno|(r & Hr & [Hcode|Hbody])]].
  - discriminate.
  - injection Hr as <-. discriminate.
  - injection Hr as <-. discriminate.
Qed.


(** With the network down, the turn of Kerala, like every other, records
    the sentinel and the loop goes on to the end. *)
Lemma fetch_failure_does_not_abort_witness :
  STATE_CENTROIDS
  = firstn 12 STATE_CENTROIDS
    ++ ("Kerala", (10.8505, 76.2711)%Q) :: skipn 13 STATE_CENTROIDS
  /\ fst (get_current_temp net_down 10.8505 76.2711
            (snd (for_each (firstn 12 STATE_CENTROIDS)
                    (collect_region net_down) first_run)))
     = Raise RequestException
  /\ fst (for_each STATE_CENTROIDS (collect_region net_down) first_run)
     = Ok tt
  /\ dict_get
       (results
          (snd (for_each STATE_CENTROIDS (collect_region net_down) first_run)))
       "Kerala"
     = Some nan.
Proof.
  split; [reflexivity|]. split; [vm_compute; reflexivity|].
  destruct (fetch_failure_does_not_abort net_down
              (firstn 12 STATE_CENTROIDS) (skipn 13 STATE_CENTROIDS)
              "Kerala" 10.8505%Q 76.2711%Q first_run RequestException)
    as (_ & _ & _ & Hok & _ & Hnan);
    [reflexivity | vm_compute; reflexivity | ].
  split; [exact Hok | exact Hnan].
Defined.

(** With an API that leaves [current_weather] out, the fetch of Kerala
    returns [None] and the snapshot holds the sentinel for it. *)
Lemma None_reading_recorded_as_nan_witness :
  STATE_CENTROIDS
  = firstn 12 STATE_CENTROIDS
    ++ ("Kerala", (10.8505, 76.2711)%Q) :: skipn 13 STATE_CENTROIDS
  /\ fst (get_current_temp net_no_field 10.8505 76.2711
            (snd (for_each (firstn 12 STATE_CENTROIDS)
                    (collect_region net_no_field) first_run)))
     = Ok PNone
  /\ dict_get
       (results
          (snd (for_each STATE_CENTROIDS (collect_region net_no_field)
                  first_run)))
       "Kerala"
     = Some nan.
Proof.
  split; [reflexivity|]. split; [vm_compute; reflexivity|].
  destruct (None_reading_recorded_as_nan net_no_field
              (firstn 12 STATE_CENTROIDS) (skipn 13 STATE_CENTROIDS)
              "Kerala" 10.8505%Q 76.2711%Q first_run)
    as (_ & _ & _ & _ & Hnan);
    [reflexivity | vm_compute; reflexivity | ].
  exact Hnan.
Defined.

(** With the network down, a first run still writes both files. *)
Lemma all_fetches_fail_witness :
  (forall lat lon s,
     exists e, fst (get_current_temp net_down lat lon s) = Raise e)
  /\ weather_history_csv (snd (main net_down clock_2024 first_run))
     = Some [ map PStr ("timestamp" :: keys STATE_CENTROIDS);
              PStr "2024-01-01 10:00:00"
              :: map (fun _ => nan) STATE_CENTROIDS ].
Proof.
  assert (Hdown : forall lat lon s,
            exists e, fst (get_current_temp net_down lat lon s) = Raise e).
  { intros lat lon s. exists RequestException. reflexivity. }
  split; [exact Hdown|].
  destruct (all_fetches_fail net_down clock_2024 first_run Hdown)
    as (_ & _ & _ & Hcsv).
  exact Hcsv.
Defined.

(** A first run without a boundary file ends in [FileNotFoundError] with
    the history file created. *)
Lemma persistence_precedes_boundary_check_witness :
  india_geojson first_run = None
  /\ fst (main net_kerala clock_2024 first_run) = Raise FileNotFoundError
  /\ weather_history_csv (snd (main net_kerala clock_2024 first_run))
     = Some [ map PStr ("timestamp" :: keys STATE_CENTROIDS);
              PStr "2024-01-01 10:00:00"
              :: values (results (snd (main net_kerala clock_2024 first_run))) ].
Proof.
  split; [reflexivity|].
  destruct (persistence_precedes_boundary_check net_kerala clock_2024
              first_run eq_refl) as (Hraise & _ & _ & Hcsv & _).
  split; [exact Hraise | exact Hcsv].
Defined.

(** ** Further properties of the collector and of the persistence writer *)

Section CollectorExtras.

Variable net : nat -> coord -> http_outcome.
Variable strftime_now : string -> string.

Lemma after_regions_stdout regions s :
  stdout (after_regions net regions s)
  = stdout s ++ log_of net (length (requests s)) regions.
Proof.
  revert s. induction regions as [|[region c] rest IH]; intros s; simpl.
  - now rewrite app_nil_r.
  - rewrite IH. unfold after_region. cbn [stdout requests].
    rewrite length_app, Nat.add_1_r, <- app_assoc. reflexivity.
Qed.

Lemma log_of_length n regions :
  length (log_of net n regions) = length regions.
Proof.
  revert n. induction regions as [|[region c] rest IH]; intros n; simpl.
  - reflexivity.
  - now rewrite IH.
Qed.

(** X1.  Every run sends exactly one request per region of the registry,
    in registry order and with the region's coordinates, whatever the
    requests before it came back with. *)
Theorem one_request_per_region s0 :
  requests (snd (main net strftime_now s0))
  = requests s0 ++ values STATE_CENTROIDS.
Proof.
  destruct (main_persisted net strftime_now s0) as (_ & Hreq & _).
  cbv zeta in Hreq. rewrite Hreq. unfold collected.
  now rewrite after_regions_requests.
Qed.

(** X2.  When the fetch of a region returns a value, the snapshot binds
    the region to that very value at the end of the loop if the console
    can format it (a [bool], an [int], a [float], a [str]) and to the
    missing sentinel otherwise (a list, an object, [None]); no later turn
    changes the entry. *)
Theorem fetched_value_recorded (pre post : dict coord) region lat lon s0 v :
  STATE_CENTROIDS = pre ++ (region, (lat, lon)) :: post ->
  let s1 := snd (for_each pre (collect_region net) s0) in
  fst (get_current_temp net lat lon s1) = Ok v ->
  let loop := for_each STATE_CENTROIDS (collect_region net) s0 in
  dict_get (results (snd loop)) region
  = Some (if supports_format_spec v then v else nan).
Proof.
  intros Hsplit s1 Hv loop. unfold loop, s1 in *. clear loop s1.
  rewrite collect_loop_run in *. cbn [snd] in *.
  rewrite fetch_result in Hv.
  destruct (loop_entry net STATE_CENTROIDS pre post region (lat, lon) s0
              STATE_CENTROIDS_distinct Hsplit) as [_ Hentry].
  cbv zeta in Hentry. rewrite Hv in Hentry. exact Hentry.
Qed.

(** The console of a run, with what follows the persistence messages
    decided by how the run ends. *)
Lemma main_console s0 :
  let run := main net strftime_now s0 in
  stdout (snd run)
  = stdout s0
    ++ [Message "Fetching current temperatures..."]
    ++ log_of net (length (requests s0)) STATE_CENTROIDS
    ++ [SavedJson; AppendedCsv]
    ++ (match fst run with
        | Ok _ => [HeatmapSaved]
        | Raise _ => []
        end).
Proof.
  intros run.
  pose proof (main_outcome net strftime_now s0) as Hrun.
  cbv zeta in Hrun. fold run in Hrun. clearbody run.
  assert (Hout : stdout (persisted strftime_now (collected net s0))
                 = stdout s0 ++ [Message "Fetching current temperatures..."]
                   ++ log_of net (length (requests s0)) STATE_CENTROIDS
                   ++ [SavedJson; AppendedCsv]).
  { unfold persisted. cbn [stdout]. unfold collected.
    rewrite after_regions_stdout. cbn [stdout requests add_stdout set_results].
    now rewrite <- !app_assoc. }
  set (s4 := persisted strftime_now (collected net s0)) in *. clearbody s4.
  set (lines := log_of net (length (requests s0)) STATE_CENTROIDS) in *.
  clearbody lines.
  destruct (india_geojson s0) as [india|].
  - destruct (name_column india) as [src|].
    + destruct (categorical (results s4) india src); subst run; cbn [fst snd].
      * rewrite Hout. now rewrite app_nil_r.
      * unfold add_stdout, set_png. cbn [stdout]. rewrite Hout.
        now rewrite <- !app_assoc.
    + subst run. cbn [fst snd]. rewrite Hout. now rewrite app_nil_r.
  - subst run. cbn [fst snd]. rewrite Hout. now rewrite app_nil_r.
Qed.

Lemma log_matches_snapshot n regions :
  Forall2 line_matches_entry (log_of net n regions)
          (snapshot_of net n regions).
Proof.
  revert n. induction regions as [|[region c] rest IH]; intros n; simpl.
  - constructor.
  - constructor; [|apply IH].
    destruct (fetched (net n c)) as [temp|e]; simpl; [|reflexivity].
    destruct (supports_format_spec temp); reflexivity.
Qed.

(** X3.  The console of a run: the banner, then exactly one line per
    region in registry order (the reading, or the error that replaced
    it), then the two persistence messages, and last the heatmap message
    if, and only if, the run ends normally. *)
Theorem console_of_a_run s0 :
  let run := main net strftime_now s0 in
  let lines := log_of net (length (requests s0)) STATE_CENTROIDS in
  stdout (snd run)
  = stdout s0
    ++ [Message "Fetching current temperatures..."]
    ++ lines
    ++ [SavedJson; AppendedCsv]
    ++ (match fst run with
        | Ok _ => [HeatmapSaved]
        | Raise _ => []
        end)
  /\ length lines = length STATE_CENTROIDS.
Proof.
  intros run lines. split; [apply main_console | apply log_of_length].
Qed.

(** X10.  The console and the snapshot of a run agree region by region:
    of the lines the run printed after the banner, the first 36 go with
    the 36 entries of the snapshot in order; where the console shows a
    reading, the snapshot holds that value for the region, and where it
    shows an error, the snapshot holds the missing sentinel. *)
Theorem console_matches_snapshot s0 :
  let final := snd (main net strftime_now s0) in
  Forall2 line_matches_entry
    (firstn (length STATE_CENTROIDS)
            (skipn (S (length (stdout s0))) (stdout final)))
    (results final).
Proof.
  intros final.
  destruct (main_persisted net strftime_now s0) as (Hres & _).
  pose proof (main_console s0) as Hout.
  cbv zeta in Hres, Hout. fold final in Hres, Hout.
  rewrite Hres, collected_results, Hout.
  generalize (match fst (main net strftime_now s0) with
              | Ok _ => [HeatmapSaved]
              | Raise _ => []
              end).
  intros tail. clear Hres Hout. clearbody final.
  change (stdout s0 ++ [Message "Fetching current temperatures..."]
          ++ log_of net (length (requests s0)) STATE_CENTROIDS
          ++ [SavedJson; AppendedCsv] ++ tail)
    with (stdout s0 ++ Message "Fetching current temperatures..."
          :: (log_of net (length (requests s0)) STATE_CENTROIDS
              ++ [SavedJson; AppendedCsv] ++ tail)).
  rewrite skipn_app.
  replace (S (length (stdout s0)) - length (stdout s0)) with 1 by lia.
  rewrite skipn_all2 by lia. cbn [app skipn].
  rewrite <- (log_of_length (length (requests s0)) STATE_CENTROIDS).
  rewrite firstn_app, Nat.sub_diag, firstn_all. cbn [firstn].
  rewrite app_nil_r. apply log_matches_snapshot.
Qed.

(** The two files after a run, in terms of the run's own snapshot. *)
Lemma files_after_run (n : nat -> coord -> http_outcome)
  (clock : string -> string) s0 :
  let s1 := snd (main n clock s0) in
  weather_history_csv s1
  = Some (match weather_history_csv s0 with
          | Some rows =>
              rows ++ [PStr (clock "%Y-%m-%d %H:%M:%S") :: values (results s1)]
          | None =>
              [map PStr ("timestamp" :: keys STATE_CENTROIDS);
               PStr (clock "%Y-%m-%d %H:%M:%S") :: values (results s1)]
          end)
  /\ current_temps_json s1 = Some (results s1).
Proof.
  intros s1.
  destruct (main_persisted n clock s0) as (Hres & _ & Hjson & Hcsv).
  fold s1 in Hres, Hjson, Hcsv.
  rewrite Hjson, Hcsv, Hres, history_written, collected_results.
  split; reflexivity.
Qed.

(** X4.  Two runs in a row, whatever their outcomes: the history file
    gains the row of the first and then the row of the second, with a
    header before them only if the file did not exist before the first;
    the snapshot file holds the snapshot of the second run alone. *)
Theorem two_runs_in_a_row (net' : nat -> coord -> http_outcome)
  (strftime_now' : string -> string) s0 :
  let s1 := snd (main net strftime_now s0) in
  let s2 := snd (main net' strftime_now' s1) in
  let line1 := PStr (strftime_now "%Y-%m-%d %H:%M:%S") :: values (results s1) in
  let line2 := PStr (strftime_now' "%Y-%m-%d %H:%M:%S") :: values (results s2) in
  weather_history_csv s2
  = Some (match weather_history_csv s0 with
          | Some rows => rows ++ [line1; line2]
          | None => [map PStr ("timestamp" :: keys STATE_CENTROIDS);
                     line1; line2]
          end)
  /\ current_temps_json s2 = Some (results s2).
Proof.
  intros s1 s2 line1 line2.
  destruct (files_after_run net strftime_now s0) as [Hcsv1 _].
  destruct (files_after_run net' strftime_now' s1) as [Hcsv2 Hjson2].
  fold s1 in Hcsv1, Hcsv2. fold s2 in Hcsv2, Hjson2.
  fold line1 in Hcsv1. fold line2 in Hcsv2.
  clearbody line1 line2 s2. clearbody s1.
  split; [|exact Hjson2]. rewrite Hcsv2, Hcsv1.
  destruct (weather_history_csv s0) as [rows|].
  - now rewrite <- app_assoc.
  - reflexivity.
Qed.

End CollectorExtras.

(** ** How [dissolve] groups the features *)

Lemma precedes_trans a b c : precedes a b -> precedes b c -> precedes a c.
Proof.
  unfold precedes. intros Hab Hbc.
  apply OrderedTypeEx.String_as_OT.cmp_lt in Hab.
  apply OrderedTypeEx.String_as_OT.cmp_lt in Hbc.
  apply OrderedTypeEx.String_as_OT.cmp_lt.
  eapply OrderedTypeEx.String_as_OT.lt_trans; eassumption.
Qed.

Lemma precedes_irrefl a : ~ precedes a a.
Proof.
  unfold precedes. intros H.
  assert (Heq : String.compare a a = Eq)
    by (now apply OrderedTypeEx.String_as_OT.cmp_eq).
  rewrite Heq in H. discriminate.
Qed.

Lemma precedes_flip a b : String.compare a b = Gt -> precedes b a.
Proof.
  unfold precedes. intros H. rewrite String.compare_antisym, H. reflexivity.
Qed.

Lemma increasing_NoDup l : StronglySorted precedes l -> NoDup l.
Proof.
  induction 1 as [|a l Hs IH Hall]; constructor; [|exact IH].
  intros Hin. rewrite Forall_forall in Hall.
  exact (precedes_irrefl a (Hall a Hin)).
Qed.

Lemma part_of_refl g : part_of g g.
Proof. destruct g; now left. Qed.

Lemma part_of_trans g G G' : part_of g G -> part_of G G' -> part_of g G'.
Proof.
  intros HgG. induction G' as [rings|a IHa b IHb]; cbn [part_of].
  - intros [<-|[]]. exact HgG.
  - intros [<-|[H|H]]; [exact HgG | right; left; auto | right; right; auto].
Qed.

Section Groups.

Implicit Types (k : string) (g : geometry) (groups : list (string * geometry)).

Lemma group_insert_keys_incl k g groups x :
  In x (keys (group_insert k g groups)) -> x = k \/ In x (keys groups).
Proof.
  induction groups as [|[k' g'] rest IH]; simpl.
  - intros [<-|[]]. now left.
  - destruct (String.compare k k'); simpl.
    + intros H. now right.
    + intros [<-|H]; [now left | now right].
    + intros [<-|H]; [right; now left|].
      destruct (IH H) as [->|Hin]; [now left | right; now right].
Qed.

Lemma group_insert_keeps k g groups x :
  In x (keys groups) -> In x (keys (group_insert k g groups)).
Proof.
  induction groups as [|[k' g'] rest IH]; simpl; [intros []|].
  destruct (String.compare k k'); simpl.
  - auto.
  - intros H. now right.
  - intros [<-|H]; [now left | right; auto].
Qed.

(** The geometry of a feature is united into the group of its name, and
    what a group holds stays part of it. *)
Lemma group_insert_geometry k g groups :
  exists G, In (k, G) (group_insert k g groups) /\ part_of g G.
Proof.
  induction groups as [|[k' g'] rest IH]; simpl.
  - exists g. split; [now left | apply part_of_refl].
  - destruct (String.compare k k') eqn:Hc.
    + apply String.compare_eq_iff in Hc. subst k'.
      exists (Union g' g). split; [now left|].
      right. right. apply part_of_refl.
    + exists g. split; [now left | apply part_of_refl].
    + destruct IH as (G & Hin & Hpart).
      exists G. split; [now right | exact Hpart].
Qed.

Lemma group_insert_grows k g groups k' G' :
  In (k', G') groups ->
  exists G'', In (k', G'') (group_insert k g groups) /\ part_of G' G''.
Proof.
  induction groups as [|[k0 g0] rest IH]; simpl; [intros []|].
  intros Hin. destruct (String.compare k k0) eqn:Hc.
  - destruct Hin as [[= <- <-]|Hin].
    + exists (Union g0 g). split; [now left|].
      right. left. apply part_of_refl.
    + exists G'. split; [now right | apply part_of_refl].
  - exists G'. split; [now right | apply part_of_refl].
  - destruct Hin as [[= <- <-]|Hin].
    + exists g0. split; [now left | apply part_of_refl].
    + destruct (IH Hin) as (G'' & Hin' & Hpart).
      exists G''. split; [now right | exact Hpart].
Qed.

Lemma group_insert_increasing k g groups :
  StronglySorted precedes (keys groups) ->
  StronglySorted precedes (keys (group_insert k g groups)).
Proof.
  induction groups as [|[k' g'] rest IH]; simpl; intros Hs.
  - repeat constructor.
  - inversion Hs as [|? ? Hrest Hall]; subst.
    destruct (String.compare k k') eqn:Hc; simpl.
    + exact Hs.
    + constructor; [exact Hs|]. constructor; [exact Hc|].
      eapply Forall_impl; [|exact Hall].
      intros x Hx. exact (precedes_trans _ _ _ Hc Hx).
    + constructor; [now apply IH|].
      apply Forall_forall. intros x Hx.
      destruct (group_insert_keys_incl _ _ _ _ Hx) as [->|Hin].
      * now apply precedes_flip.
      * rewrite Forall_forall in Hall. now apply Hall.
Qed.

Lemma groups_increasing parts groups :
  StronglySorted precedes (keys groups) ->
  StronglySorted precedes (keys (fold_left group_step parts groups)).
Proof.
  revert groups. induction parts as [|[[k|] g] parts IH]; intros groups Hs;
    simpl; [exact Hs | |]; apply IH; unfold group_step; cbn [fst snd].
  - now apply group_insert_increasing.
  - exact Hs.
Qed.

Lemma groups_keys parts groups k :
  In k (keys (fold_left group_step parts groups))
  <-> In k (keys groups) \/ In (Some k) (map fst parts).
Proof.
  revert groups. induction parts as [|[[k'|] g] parts IH]; intros groups;
    simpl.
  - tauto.
  - rewrite IH. unfold group_step. cbn [fst snd]. split.
    + intros [H|H]; [|now right; right].
      destruct (group_insert_keys_incl _ _ _ _ H) as [->|Hin];
        [right; now left | now left].
    + intros [H|[[= ->]|H]].
      * left. now apply group_insert_keeps.
      * left. destruct (group_insert_geometry k g groups) as (G & Hin & _).
        unfold keys. change k with (fst (k, G)). now apply in_map.
      * now right.
  - rewrite IH. unfold group_step. cbn [fst]. split.
    + intros [H|H]; [now left | now right; right].
    + intros [H|[H|H]]; [now left | discriminate | now right].
Qed.

Lemma groups_grow parts groups k G :
  In (k, G) groups ->
  exists G', In (k, G') (fold_left group_step parts groups) /\ part_of G G'.
Proof.
  revert groups G. induction parts as [|[[k'|] g] parts IH];
    intros groups G Hin; simpl.
  - exists G. split; [exact Hin | apply part_of_refl].
  - unfold group_step at 2. cbn [fst snd].
    destruct (group_insert_grows k' g groups k G Hin) as (G1 & Hin1 & Hincl1).
    destruct (IH _ _ Hin1) as (G2 & Hin2 & Hincl2).
    exists G2. split; [exact Hin2 | eapply part_of_trans; eassumption].
  - unfold group_step at 2. cbn [fst]. now apply IH.
Qed.

Lemma groups_geometry parts groups k g :
  In (Some k, g) parts ->
  exists G, In (k, G) (fold_left group_step parts groups) /\ part_of g G.
Proof.
  revert groups. induction parts as [|part parts IH]; intros groups;
    simpl; [intros []|].
  intros [->|Hin]; [|now apply IH].
  unfold group_step at 2. cbn [fst snd].
  destruct (group_insert_geometry k g groups) as (G1 & Hin1 & Hincl1).
  destruct (groups_grow parts _ _ _ Hin1) as (G2 & Hin2 & Hincl2).
  exists G2. split; [exact Hin2 | eapply part_of_trans; eassumption].
Qed.

End Groups.

Lemma column_of_set (p : dict (option string)) (g : geometry) c v :
  column c (mkFeature (dict_set p c v) g) = v.
Proof. unfold column. cbn [properties]. now rewrite dict_get_set. Qed.

(** [dissolve], after the two assignments to [state_name], groups the
    features by their normalized names. *)
Lemma dissolve_named_parts src india :
  dissolve (replace_state_name (assign_state_name src india))
  = fold_left group_step (named_parts src india) [].
Proof.
  unfold dissolve, replace_state_name, assign_state_name, named_parts.
  cbn [features]. rewrite map_map.
  generalize (@nil (string * geometry)).
  induction (features india) as [|f feats IH]; intros groups; simpl.
  - reflexivity.
  - rewrite IH. unfold group_step at 2. cbn [fst snd].
    now rewrite !column_of_set.
Qed.

Lemma joined_rows_names temp_data india src :
  map state_name (joined_rows temp_data india src)
  = keys (fold_left group_step (named_parts src india) []).
Proof.
  unfold joined_rows, joined, attach_temperatures. cbn [rows].
  rewrite dissolve_named_parts, map_map. reflexivity.
Qed.

(** ** Further properties of the map renderer *)

Lemma rename_never_long name :
  rename name <> Some "Dadra and Nagar Haveli and Daman and Diu".
Proof.
  destruct name as [s|]; cbn [rename]; [|discriminate].
  destruct (String.eqb_spec s "Dadra and Nagar Haveli and Daman and Diu")
    as [->|Hne]; [discriminate | congruence].
Qed.

Lemma dict_get_absent {V : Type} (d : dict V) k :
  ~ In k (keys d) -> dict_get d k = None.
Proof.
  induction d as [|[k' v] d IH]; simpl; intros Hk; [reflexivity|].
  destruct (String.eqb_spec k k') as [->|Hne].
  - exfalso. apply Hk. now left.
  - apply IH. intros Hin. apply Hk. now right.
Qed.

Lemma fill_of_grey v : fill_of v = LightGrey <-> isna v = true.
Proof. unfold fill_of. destruct (isna v); split; auto; discriminate. Qed.

Lemma isna_to_float64 v : isna (to_float64 v) = isna v.
Proof. destruct v; reflexivity. Qed.

Lemma isna_column_value temp_data groups k :
  isna (column_value temp_data groups k)
  = isna (joined_temperature temp_data k).
Proof.
  unfold column_value, joined_temperature.
  destruct (dict_get temp_data k) as [v|]; [|reflexivity].
  destruct (temperature_dtype _); try reflexivity. apply isna_to_float64.
Qed.

Lemma patches_of_figure temp_data timestamp india src :
  let groups := fold_left group_step (named_parts src india) [] in
  patches (figure_of temp_data timestamp india src)
  = map (fun kg => (fst kg, snd kg,
                    fill_of (column_value temp_data groups (fst kg))))
        groups.
Proof.
  intros groups. unfold figure_of, joined_rows, joined. cbn [patches].
  rewrite dissolve_named_parts. fold groups.
  unfold draw, column_value, fill_of, attach_temperatures.
  cbn [rows temperature_dtype]. rewrite map_map. reflexivity.
Qed.

Lemma patch_names_of_figure temp_data timestamp india src :
  map patch_name (patches (figure_of temp_data timestamp india src))
  = keys (fold_left group_step (named_parts src india) []).
Proof. rewrite patches_of_figure, map_map. reflexivity. Qed.

(** What a normal return of [plot_heatmap] tells. *)
Lemma plot_heatmap_ok temp_data timestamp s india :
  india_geojson s = Some india ->
  fst (plot_heatmap temp_data timestamp s) = Ok tt ->
  renders s = true
  /\ plot_heatmap temp_data timestamp s
     = (Ok tt,
        add_stdout HeatmapSaved
          (set_png (figure_of temp_data timestamp india
                      (if mem "name" (columns india) then "name"
                       else "st_nm"))
                   s)).
Proof.
  intros Hgeo. rewrite plot_heatmap_run, Hgeo. unfold renders. rewrite Hgeo.
  unfold name_column.
  destruct (mem "name" (columns india)); cbn [orb].
  - destruct (categorical temp_data india "name"); cbn [fst];
      [discriminate | now split].
  - destruct (mem "st_nm" (columns india)); cbn [fst]; [|discriminate].
    destruct (categorical temp_data india "st_nm"); cbn [fst];
      [discriminate | now split].
Qed.

Lemma named_parts_In src india k :
  In (Some k) (map fst (named_parts src india))
  <-> exists f, In f (features india) /\ rename (column src f) = Some k.
Proof.
  unfold named_parts. rewrite map_map. cbn [fst]. rewrite in_map_iff.
  split; intros (f & H1 & H2); exists f; auto.
Qed.

(** X5.  Whenever [plot_heatmap] returns, a feature the boundary file
    names "Dadra and Nagar Haveli and Daman and Diu" has been drawn as
    part of the region "D&D" (its geometry is one of those united into
    the region's), grey exactly when the data has no reading for "D&D";
    and no region of the map keeps the long name. *)
Theorem long_name_drawn_as_alias temp_data timestamp s india f :
  india_geojson s = Some india ->
  fst (plot_heatmap temp_data timestamp s) = Ok tt ->
  In f (features india) ->
  column (if mem "name" (columns india) then "name" else "st_nm") f
  = Some "Dadra and Nagar Haveli and Daman and Diu" ->
  exists fig p,
    india_heatmap_png (snd (plot_heatmap temp_data timestamp s)) = Some fig
    /\ In p (patches fig)
    /\ patch_name p = "D&D"
    /\ part_of (geom f) (patch_geometry p)
    /\ (patch_fill p = LightGrey
        <-> isna (joined_temperature temp_data "D&D") = true)
    /\ Forall (fun q => patch_name q
                        <> "Dadra and Nagar Haveli and Daman and Diu")
              (patches fig).
Proof.
  intros Hgeo Hok Hf Hlong.
  destruct (plot_heatmap_ok _ _ _ _ Hgeo Hok) as [_ ->].
  set (src := if mem "name" (columns india) then "name" else "st_nm") in *.
  destruct (groups_geometry (named_parts src india) [] "D&D" (geom f))
    as (G & HG & Hpart).
  { unfold named_parts. apply in_map_iff. exists f. split; [|exact Hf].
    now rewrite Hlong. }
  set (groups := fold_left group_step (named_parts src india) []) in *.
  eexists. exists ("D&D", G, fill_of (column_value temp_data groups "D&D")).
  split; [reflexivity|]. rewrite patches_of_figure. fold groups.
  split.
  { apply in_map_iff. exists ("D&D", G). split; [reflexivity | exact HG]. }
  split; [reflexivity|]. split; [exact Hpart|]. split.
  { unfold patch_fill. cbn [snd].
    now rewrite fill_of_grey, isna_column_value. }
  apply Forall_forall. intros q Hq Hname.
  assert (Hin : In (patch_name q) (keys groups)).
  { unfold groups. rewrite <- (patch_names_of_figure temp_data timestamp).
    rewrite patches_of_figure. now apply in_map. }
  apply groups_keys in Hin. destruct Hin as [[]|Hin].
  apply named_parts_In in Hin. destruct Hin as (f' & _ & Hren).
  rewrite Hname in Hren. exact (rename_never_long _ Hren).
Qed.

(** X6.  Whenever [plot_heatmap] returns, the map has one region per
    name: the regions come in strictly increasing order of name, so no
    name is drawn twice however many features carry it; the names drawn
    are exactly the normalized names of the features, taken from the
    column ["name"] when the file has one and from ["st_nm"] otherwise
    (features with a null name are not drawn); and the geometry of every
    named feature is one of those united into the region of its name. *)
Theorem one_region_per_name temp_data timestamp s india :
  india_geojson s = Some india ->
  fst (plot_heatmap temp_data timestamp s) = Ok tt ->
  let src := if mem "name" (columns india) then "name" else "st_nm" in
  exists fig,
    india_heatmap_png (snd (plot_heatmap temp_data timestamp s)) = Some fig
    /\ StronglySorted precedes (map patch_name (patches fig))
    /\ NoDup (map patch_name (patches fig))
    /\ (forall k, In k (map patch_name (patches fig))
                  <-> exists f, In f (features india)
                                /\ rename (column src f) = Some k)
    /\ (forall f k, In f (features india) ->
                    rename (column src f) = Some k ->
                    exists p, In p (patches fig)
                              /\ patch_name p = k
                              /\ part_of (geom f) (patch_geometry p)).
Proof.
  intros Hgeo Hok src.
  destruct (plot_heatmap_ok _ _ _ _ Hgeo Hok) as [_ ->]. fold src.
  eexists. split; [reflexivity|].
  rewrite patch_names_of_figure.
  assert (Hs : StronglySorted precedes
                 (keys (fold_left group_step (named_parts src india) []))).
  { apply groups_increasing. constructor. }
  split; [exact Hs|]. split; [now apply increasing_NoDup|]. split.
  - intros k. rewrite groups_keys, named_parts_In. cbn [keys map In]. tauto.
  - intros f k Hf Hk.
    destruct (groups_geometry (named_parts src india) [] k (geom f))
      as (G & HG & Hpart).
    { unfold named_parts. apply in_map_iff. exists f. split; [|exact Hf].
      now rewrite Hk. }
    set (groups := fold_left group_step (named_parts src india) []) in *.
    exists (k, G, fill_of (column_value temp_data groups k)).
    rewrite patches_of_figure. fold groups.
    split; [|split; [reflexivity | exact Hpart]].
    apply in_map_iff. exists (k, G). split; [reflexivity | exact HG].
Qed.

(** X9.  [plot_heatmap] is all or nothing.  When it raises (on a missing
    boundary file, on a boundary file without a column of names, on a
    temperature column [plot] rejects), it leaves the state as it found
    it: no image, no console line.  When it returns, the boundary file
    was there with a column of names, and it has written the image and
    one console line and touched nothing else: the snapshot, the
    requests, the snapshot file, the history file and the boundary file
    are as they were. *)
Theorem plot_heatmap_all_or_nothing temp_data timestamp s :
  let run := plot_heatmap temp_data timestamp s in
  match fst run with
  | Raise _ => snd run = s
  | Ok _ =>
      renders s = true
      /\ stdout (snd run) = stdout s ++ [HeatmapSaved]
      /\ (exists fig, india_heatmap_png (snd run) = Some fig)
      /\ results (snd run) = results s
      /\ requests (snd run) = requests s
      /\ current_temps_json (snd run) = current_temps_json s
      /\ weather_history_csv (snd run) = weather_history_csv s
      /\ india_geojson (snd run) = india_geojson s
  end.
Proof.
  intros run. unfold run. rewrite plot_heatmap_run. unfold renders, name_column.
  destruct (india_geojson s) as [india|] eqn:Hgeo; cbn [fst snd];
    [|reflexivity].
  destruct (mem "name" (columns india)); cbn [orb fst snd].
  - destruct (categorical temp_data india "name"); cbn [fst snd];
      [reflexivity|].
    unfold add_stdout, set_png.
    cbn [stdout results requests current_temps_json weather_history_csv
         india_geojson india_heatmap_png].
    repeat split; try assumption. now eexists.
  - destruct (mem "st_nm" (columns india)); cbn [fst snd]; [|reflexivity].
    destruct (categorical temp_data india "st_nm"); cbn [fst snd];
      [reflexivity|].
    unfold add_stdout, set_png.
    cbn [stdout results requests current_temps_json weather_history_csv
         india_geojson india_heatmap_png].
    repeat split; try assumption. now eexists.
Qed.

Section RendererExtras.

Variable net : nat -> coord -> http_outcome.
Variable strftime_now : string -> string.

(** The figure a run saves when it ends normally. *)
Lemma main_figure s0 :
  fst (main net strftime_now s0) = Ok tt ->
  exists india src,
    india_geojson s0 = Some india
    /\ india_heatmap_png (snd (main net strftime_now s0))
       = Some (figure_of (results (collected net s0))
                 (strftime_now "%Y-%m-%d %H:%M:%S %Z") india src)
    /\ results (snd (main net strftime_now s0)) = results (collected net s0).
Proof.
  intros Hok.
  pose proof (main_outcome net strftime_now s0) as Hrun. cbv zeta in Hrun.
  rewrite (proj1 (persisted_keeps _ _)) in Hrun.
  assert (Hres : results (persisted strftime_now (collected net s0))
                 = results (collected net s0)) by apply persisted_keeps.
  set (s4 := persisted strftime_now (collected net s0)) in *. clearbody s4.
  set (c := collected net s0) in *. clearbody c.
  set (run := main net strftime_now s0) in *. clearbody run.
  destruct (india_geojson s0) as [india|]; [|subst run; discriminate].
  destruct (name_column india) as [src|]; [|subst run; discriminate].
  destruct (categorical (results c) india src); [subst run; discriminate|].
  exists india, src. subst run. unfold add_stdout, set_png.
  cbn [snd india_heatmap_png results]. auto.
Qed.

(** X7.  In every run that ends normally, the labels of the map are its
    regions, one for one and in the same order: each region drawn, with
    or without a reading, carries one label with its own name, anchored
    on its own geometry, and the temperature the label shows is the one
    that decided the region's fill. *)
Theorem every_region_labelled s0 :
  fst (main net strftime_now s0) = Ok tt ->
  exists fig,
    india_heatmap_png (snd (main net strftime_now s0)) = Some fig
    /\ map label_name (texts fig) = map patch_name (patches fig)
    /\ map anchor_centroid_of (texts fig) = map patch_geometry (patches fig)
    /\ map (fun t => fill_of (label_temperature t)) (texts fig)
       = map patch_fill (patches fig).
Proof.
  intros Hok. destruct (main_figure s0 Hok) as (india & src & _ & Hpng & _).
  eexists. split; [exact Hpng|].
  rewrite every_row_labelled. unfold figure_of, draw. cbn [patches].
  rewrite !map_map. repeat split.
Qed.

(** X8.  In every run that ends normally, the fill of each region is read
    off the snapshot of that run, the one the snapshot file holds: grey
    when the snapshot has no entry for the region's name or the entry is
    the missing sentinel, and otherwise the colour scale at the entry's
    value (taken as a float when the column is a float column).  A region
    whose name is not in the registry is therefore always grey. *)
Theorem fill_follows_snapshot s0 :
  fst (main net strftime_now s0) = Ok tt ->
  let final := snd (main net strftime_now s0) in
  exists fig,
    india_heatmap_png final = Some fig
    /\ current_temps_json final = Some (results final)
    /\ Forall (fun p =>
                 match dict_get (results final) (patch_name p) with
                 | None => patch_fill p = LightGrey
                 | Some v =>
                     if isna v then patch_fill p = LightGrey
                     else patch_fill p = YlOrRd v
                          \/ patch_fill p = YlOrRd (to_float64 v)
                 end
                 /\ (In (patch_name p) (keys STATE_CENTROIDS)
                     \/ patch_fill p = LightGrey))
              (patches fig).
Proof.
  intros Hok final.
  destruct (main_figure s0 Hok) as (india & src & _ & Hpng & Hres).
  destruct (main_persisted net strftime_now s0) as (_ & _ & Hjson & _).
  fold final in Hpng, Hres, Hjson.
  eexists. split; [exact Hpng|]. split; [now rewrite Hjson, Hres|].
  rewrite Hres, patches_of_figure. cbv zeta.
  assert (Hkeys : keys (results (collected net s0)) = keys STATE_CENTROIDS)
    by (now rewrite collected_results, snapshot_of_keys).
  generalize dependent (collected net s0). intros c _ _ _ Hkeys.
  apply Forall_map. apply Forall_forall. intros [k G] _.
  unfold patch_fill, patch_name. cbn [fst snd].
  assert (Hfill : match dict_get (results c) k with
                  | None =>
                      fill_of (column_value (results c)
                        (fold_left group_step (named_parts src india) []) k)
                      = LightGrey
                  | Some v =>
                      if isna v
                      then fill_of (column_value (results c)
                             (fold_left group_step (named_parts src india) [])
                             k) = LightGrey
                      else fill_of (column_value (results c)
                             (fold_left group_step (named_parts src india) [])
                             k) = YlOrRd v
                           \/ fill_of (column_value (results c)
                                (fold_left group_step
                                   (named_parts src india) []) k)
                              = YlOrRd (to_float64 v)
                  end).
  { unfold column_value.
    destruct (dict_get (results c) k) as [v|]; [|reflexivity].
    destruct (temperature_dtype _); unfold fill_of;
      rewrite ?isna_to_float64; destruct (isna v); auto. }
  split; [exact Hfill|].
  destruct (in_dec string_dec k (keys STATE_CENTROIDS)) as [Hin|Hout];
    [now left | right].
  rewrite <- Hkeys in Hout. rewrite (dict_get_absent _ _ Hout) in Hfill.
  exact Hfill.
Qed.

End RendererExtras.

(** ** The further properties at work on the sample runs *)

(** Kerala's reading of 28.5 is what the snapshot holds for Kerala. *)
Lemma fetched_value_recorded_witness :
  STATE_CENTROIDS
  = firstn 12 STATE_CENTROIDS
    ++ ("Kerala", (10.8505, 76.2711)%Q) :: skipn 13 STATE_CENTROIDS
  /\ fst (get_current_temp net_kerala 10.8505 76.2711
            (snd (for_each (firstn 12 STATE_CENTROIDS)
                    (collect_region net_kerala) first_run)))
     = Ok (PFloat (Fin 28.5))
  /\ dict_get
       (results
          (snd (for_each STATE_CENTROIDS (collect_region net_kerala)
                  first_run)))
       "Kerala"
     = Some (PFloat (Fin 28.5)).
Proof.
  split; [reflexivity|]. split; [vm_compute; reflexivity|].
  apply (fetched_value_recorded net_kerala
           (firstn 12 STATE_CENTROIDS) (skipn 13 STATE_CENTROIDS)
           "Kerala" 10.8505%Q 76.2711%Q first_run (PFloat (Fin 28.5)));
    [reflexivity | vm_compute; reflexivity].
Defined.

(** The first part of the union territory in [boundary_st_nm] is drawn
    under "D&D", which is not grey when "D&D" has a reading. *)
Lemma long_name_drawn_as_alias_witness :
  india_geojson (first_run_with boundary_st_nm) = Some boundary_st_nm
  /\ fst (plot_heatmap [("D&D", PFloat (Fin 30.1))]
            "2024-01-01 10:00:00 IST" (first_run_with boundary_st_nm))
     = Ok tt
  /\ exists fig p,
       india_heatmap_png
         (snd (plot_heatmap [("D&D", PFloat (Fin 30.1))]
                 "2024-01-01 10:00:00 IST" (first_run_with boundary_st_nm)))
       = Some fig
       /\ In p (patches fig)
       /\ patch_name p = "D&D"
       /\ part_of (square 73 20) (patch_geometry p)
       /\ patch_fill p <> LightGrey.
Proof.
  split; [reflexivity|]. split; [vm_compute; reflexivity|].
  destruct (long_name_drawn_as_alias [("D&D", PFloat (Fin 30.1))]
              "2024-01-01 10:00:00 IST" (first_run_with boundary_st_nm)
              boundary_st_nm
              (mkFeature
                 [("st_nm", Some "Dadra and Nagar Haveli and Daman and Diu")]
                 (square 73 20))
              eq_refl)
    as (fig & p & Hpng & Hin & Hname & Hpart & Hfill & _).
  - vm_compute. reflexivity.
  - vm_compute. tauto.
  - reflexivity.
  - exists fig, p. repeat split; try assumption.
    intros Hgrey. apply Hfill in Hgrey. discriminate.
Defined.

(** [boundary_both] has two features named Kerala: the map has the three
    names of its ["name"] column, each once. *)
Lemma one_region_per_name_witness :
  india_geojson (first_run_with boundary_both) = Some boundary_both
  /\ fst (plot_heatmap [("Kerala", PFloat (Fin 28.5))]
            "2024-01-01 10:00:00 IST"
            (first_run_with boundary_both))
     = Ok tt
  /\ exists fig,
       india_heatmap_png
         (snd (plot_heatmap [("Kerala", PFloat (Fin 28.5))]
            "2024-01-01 10:00:00 IST"
                 (first_run_with boundary_both)))
       = Some fig
       /\ NoDup (map patch_name (patches fig)).
Proof.
  split; [reflexivity|]. split; [vm_compute; reflexivity|].
  destruct (one_region_per_name [("Kerala", PFloat (Fin 28.5))]
              "2024-01-01 10:00:00 IST"
              (first_run_with boundary_both) boundary_both eq_refl)
    as (fig & Hpng & _ & Hnodup & _).
  - vm_compute. reflexivity.
  - exists fig. split; assumption.
Defined.

(** A run over [boundary_both] in which only Kerala gets a reading. *)
Lemma every_region_labelled_witness :
  fst (main net_kerala clock_2024 (first_run_with boundary_both)) = Ok tt
  /\ exists fig,
       india_heatmap_png
         (snd (main net_kerala clock_2024 (first_run_with boundary_both)))
       = Some fig
       /\ map label_name (texts fig) = map patch_name (patches fig).
Proof.
  split; [vm_compute; reflexivity|].
  destruct (every_region_labelled net_kerala clock_2024
              (first_run_with boundary_both))
    as (fig & Hpng & Hnames & _).
  - vm_compute. reflexivity.
  - exists fig. split; assumption.
Defined.

(** In the same run Atlantis, which is no region of the registry, is grey. *)
Lemma fill_follows_snapshot_witness :
  fst (main net_kerala clock_2024 (first_run_with boundary_both)) = Ok tt
  /\ exists fig,
       india_heatmap_png
         (snd (main net_kerala clock_2024 (first_run_with boundary_both)))
       = Some fig
       /\ Forall (fun p => In (patch_name p) (keys STATE_CENTROIDS)
                           \/ patch_fill p = LightGrey)
                 (patches fig).
Proof.
  split; [vm_compute; reflexivity|].
  destruct (fill_follows_snapshot net_kerala clock_2024
              (first_run_with boundary_both))
    as (fig & Hpng & _ & Hall).
  - vm_compute. reflexivity.
  - exists fig. split; [exact Hpng|].
    eapply Forall_impl; [|exact Hall]. intros p [_ H]. exact H.
Defined.
